(** * Sawyer soccer environment (v2): reward shaping and task sampling

    A shallow embedding of
    [metaworld/envs/mujoco/sawyer_xyz/v2/sawyer_soccer_v2.py].

    Conventions of the embedding.
    - Python floats are modelled as mathematical reals ([R]); rounding and
      NaN are outside the model.  The one division whose divisor can be
      zero is modelled with its infinite quotient written out.
    - A numpy array of three components is a [vec3], the six-component
      random vector is a [vec6]; observations and actions, which come from
      the caller, are lists and indexing them can raise.
    - Code that raises returns a [result]; the unbounded rejection loop of
      [reset_model] takes fuel and returns [None] when it runs out.
    - [self] is an explicit record, threaded through the methods. *)

From Stdlib Require Import Reals Lra Lia List String Bool.
Import ListNotations.
Open Scope R_scope.

(** ** Comparisons of floats as booleans *)

Definition Rleb (x y : R) : bool := if Rle_dec x y then true else false.
Definition Rltb (x y : R) : bool := if Rlt_dec x y then true else false.
Definition Rgeb (x y : R) : bool := Rleb y x.
Definition Rgtb (x y : R) : bool := Rltb y x.
Definition Reqb (x y : R) : bool := if Req_dec_T x y then true else false.

Infix "<=?" := Rleb (at level 70, no associativity) : R_scope.
Infix "<?" := Rltb (at level 70, no associativity) : R_scope.
Infix ">=?" := Rgeb (at level 70, no associativity) : R_scope.
Infix ">?" := Rgtb (at level 70, no associativity) : R_scope.
Infix "=?" := Reqb (at level 70, no associativity) : R_scope.

(** [float(b)] of a Python boolean. *)
Definition float (b : bool) : R := if b then 1 else 0.

(** ** Exceptions *)

Inductive exn : Set :=
| AssertionError
| IndexError
| ValueError
| RuntimeError.

Inductive result (A : Type) : Type :=
| Ok (a : A)
| Raise (e : exn).
Arguments Ok {A} a.
Arguments Raise {A} e.

Definition bind {A B : Type} (c : result A) (k : A -> result B) : result B :=
  match c with
  | Ok a => k a
  | Raise e => Raise e
  end.

Notation "x <- c ;; k" := (bind c (fun x => k))
  (at level 61, c at next level, right associativity).
Notation "'assert_' b ;; k" := (if (b : bool) then k else Raise AssertionError)
  (at level 61, b at next level, right associativity).

(** ** Arrays *)

Record vec3 : Type := V3 { i0 : R; i1 : R; i2 : R }.
Record vec6 : Type :=
  V6 { j0 : R; j1 : R; j2 : R; j3 : R; j4 : R; j5 : R }.

Definition add3 (a b : vec3) : vec3 :=
  V3 (i0 a + i0 b) (i1 a + i1 b) (i2 a + i2 b).
Definition sub3 (a b : vec3) : vec3 :=
  V3 (i0 a - i0 b) (i1 a - i1 b) (i2 a - i2 b).
Definition mul3 (a b : vec3) : vec3 :=
  V3 (i0 a * i0 b) (i1 a * i1 b) (i2 a * i2 b).

(** [np.linalg.norm] of a three-component and of a two-component array. *)
Definition norm3 (a : vec3) : R :=
  sqrt (i0 a * i0 a + i1 a * i1 a + i2 a * i2 a).
Definition norm2 (a : R * R) : R :=
  sqrt (fst a * fst a + snd a * snd a).
Definition sub2 (a b : R * R) : R * R := (fst a - fst b, snd a - snd b).

(** [np.hstack((a, b))] of two triples. *)
Definition hstack (a b : vec3) : vec6 :=
  V6 (i0 a) (i1 a) (i2 a) (i0 b) (i1 b) (i2 b).
(** [v[:2]] on either size and [v[3:]] on the random vector. *)
Definition firsttwo3 (a : vec3) : R * R := (i0 a, i1 a).
Definition firsttwo6 (v : vec6) : R * R := (j0 v, j1 v).
Definition from3 (v : vec6) : vec3 := V3 (j3 v) (j4 v) (j5 v).
(** [np.concatenate((xy, [z]))]. *)
Definition concatenate (xy : R * R) (z : R) : vec3 := V3 (fst xy) (snd xy) z.

(** [np.clip(v, lo, hi)]. *)
Definition clip (v lo hi : R) : R := Rmin (Rmax v lo) hi.

(** [x / y] on floats: a division by zero does not raise, its quotient is
    infinite and has no real value. *)
Definition float_div (x y : R) : option R :=
  if y =? 0 then None else Some (x / y).

(** The truth value of a bound method, as [and] and [float] see it: a
    method object is true whatever it would return when called. *)
Definition method_truth {A B : Type} (method : A -> B) : bool := true.

(** [a[k]] on a caller-supplied list: out of range raises. *)
Definition index (a : list R) (k : nat) : result R :=
  match nth_error a k with
  | Some v => Ok v
  | None => Raise IndexError
  end.

(** [a[-1]]. *)
Definition index_last (a : list R) : result R :=
  match a with
  | [] => Raise IndexError
  | _ => Ok (last a 0)
  end.

(** [a[lo:hi]]: slices never raise, they come back short. *)
Definition slice (a : list R) (lo hi : nat) : list R :=
  firstn (hi - lo) (skipn lo a).

(** The object slice [obs[4:7]] is used as a three-component array: it is
    subtracted from three-component arrays and indexed at 0, 1 and 2.  A
    slice of three components goes through.  A slice of one component
    broadcasts in the subtractions and then fails at [obj[1]]; a slice of
    zero or two components does not broadcast against three.  Everything
    between these points is pure, so the first failure decides the
    outcome. *)
Definition as_vec3 (a : list R) : result vec3 :=
  match a with
  | [x; y; z] => Ok (V3 x y z)
  | [_] => Raise IndexError
  | _ => Raise ValueError
  end.

(** ** [reward_utils] *)

Module reward_utils.

(** Modelled from the spec: [reward_utils.tolerance] is imported from a
    module that is not part of the sources at hand.  The specification
    gives its contract for the long-tail shape, the only one used here:
    the margin must be at least 0; the score lies in [[0,1]]; it is 1 when
    the value is inside the bounds; a margin of 0 makes it a hard
    indicator.  A call with a negative margin or with bounds in the wrong
    order is turned down with [ValueError]. *)
Class Tolerance : Type := {
  tolerance : R -> R * R -> R -> string -> result R;
  tolerance_invalid :
    forall x lower upper margin sigmoid,
      lower > upper \/ margin < 0 ->
      tolerance x (lower, upper) margin sigmoid = Raise ValueError;
  tolerance_range :
    forall x lower upper margin,
      lower <= upper -> 0 <= margin ->
      exists v,
        tolerance x (lower, upper) margin "long_tail" = Ok v /\
        0 <= v <= 1;
  tolerance_inside :
    forall x lower upper margin,
      lower <= x <= upper -> 0 <= margin ->
      tolerance x (lower, upper) margin "long_tail" = Ok 1;
  tolerance_hard :
    forall x lower upper,
      lower <= upper -> ~ (lower <= x <= upper) ->
      tolerance x (lower, upper) 0 "long_tail" = Ok 0
}.

(** Modelled from the spec: [reward_utils.hamacher_product], the fuzzy
    conjunction [a*b / (a + b - a*b)], with value 0 when [a = b = 0] so
    that the division is never by zero. *)
Definition hamacher_product (a b : R) : R :=
  if (a =? 0) && (b =? 0) then 0 else (a * b) / (a + b - a * b).

(** A long-tail curve: value 1 at distance 0 and 1/10 at one margin. *)
Definition long_tail_curve (d : R) : R := 1 / ((d * 3) * (d * 3) + 1).

(** One tolerance function meeting the contract, with the long-tail
    curve applied to the distance from the bounds measured in margins. *)
Definition long_tail_tolerance
    (x : R) (bounds : R * R) (margin : R) (sigmoid : string) : result R :=
  let (lower, upper) := bounds in
  if lower >? upper then Raise ValueError
  else if margin <? 0 then Raise ValueError
  else if (lower <=? x) && (x <=? upper) then Ok 1
  else if margin =? 0 then Ok 0
  else
    let d := (if x <? lower then lower - x else x - upper) / margin in
    Ok (long_tail_curve d).

End reward_utils.

(** ** The environment object *)

Record Box (A : Type) : Type := { low : A; high : A }.
Arguments low {A} b.
Arguments high {A} b.

(** The part of [self] owned by the base class [SawyerXYZEnv] and by the
    simulation behind it; this file only reads it, apart from moving the
    goal body.  [touching_object] is a method of the base class: it takes
    the id of a geom and tells whether the gripper touches it. *)
Record SawyerXYZEnv : Type := {
  tcp_center : vec3;
  get_body_com : string -> vec3;
  touching_object : nat -> bool;
  init_tcp : vec3;
  init_left_pad : vec3;
  init_right_pad : vec3;
  _set_task_called : bool;
  body_pos : string -> vec3
}.

Record InitConfig : Type := {
  cfg_obj_init_pos : vec3;
  cfg_obj_init_angle : R;
  cfg_hand_init_pos : vec3
}.

Record SawyerSoccerEnvV2 : Type := {
  super : SawyerXYZEnv;
  init_config : InitConfig;
  goal : vec3;
  obj_init_pos : vec3;
  obj_init_angle : R;
  hand_init_pos : vec3;
  _random_reset_space : Box vec6;
  goal_space : Box vec3;
  _target_pos : vec3;
  target_pos : vec3;
  maxPushDist : R;
  (** the vectors the random source will hand out, next one first *)
  rand_vecs : nat -> vec6
}.

Definition OBJ_RADIUS : R := 0.013.
Definition TARGET_RADIUS : R := 0.07.

(** *** Attribute assignment *)

Definition set_super (self : SawyerSoccerEnvV2) (v : SawyerXYZEnv) :=
  {| super := v; init_config := init_config self; goal := goal self;
     obj_init_pos := obj_init_pos self; obj_init_angle := obj_init_angle self;
     hand_init_pos := hand_init_pos self;
     _random_reset_space := _random_reset_space self;
     goal_space := goal_space self; _target_pos := _target_pos self;
     target_pos := target_pos self; maxPushDist := maxPushDist self;
     rand_vecs := rand_vecs self |}.

Definition set_obj_init_pos (self : SawyerSoccerEnvV2) (v : vec3) :=
  {| super := super self; init_config := init_config self; goal := goal self;
     obj_init_pos := v; obj_init_angle := obj_init_angle self;
     hand_init_pos := hand_init_pos self;
     _random_reset_space := _random_reset_space self;
     goal_space := goal_space self; _target_pos := _target_pos self;
     target_pos := target_pos self; maxPushDist := maxPushDist self;
     rand_vecs := rand_vecs self |}.

Definition set_obj_init_angle (self : SawyerSoccerEnvV2) (v : R) :=
  {| super := super self; init_config := init_config self; goal := goal self;
     obj_init_pos := obj_init_pos self; obj_init_angle := v;
     hand_init_pos := hand_init_pos self;
     _random_reset_space := _random_reset_space self;
     goal_space := goal_space self; _target_pos := _target_pos self;
     target_pos := target_pos self; maxPushDist := maxPushDist self;
     rand_vecs := rand_vecs self |}.

Definition set__target_pos (self : SawyerSoccerEnvV2) (v : vec3) :=
  {| super := super self; init_config := init_config self; goal := goal self;
     obj_init_pos := obj_init_pos self; obj_init_angle := obj_init_angle self;
     hand_init_pos := hand_init_pos self;
     _random_reset_space := _random_reset_space self;
     goal_space := goal_space self; _target_pos := v;
     target_pos := target_pos self; maxPushDist := maxPushDist self;
     rand_vecs := rand_vecs self |}.

Definition set_target_pos (self : SawyerSoccerEnvV2) (v : vec3) :=
  {| super := super self; init_config := init_config self; goal := goal self;
     obj_init_pos := obj_init_pos self; obj_init_angle := obj_init_angle self;
     hand_init_pos := hand_init_pos self;
     _random_reset_space := _random_reset_space self;
     goal_space := goal_space self; _target_pos := _target_pos self;
     target_pos := v; maxPushDist := maxPushDist self;
     rand_vecs := rand_vecs self |}.

Definition set_maxPushDist (self : SawyerSoccerEnvV2) (v : R) :=
  {| super := super self; init_config := init_config self; goal := goal self;
     obj_init_pos := obj_init_pos self; obj_init_angle := obj_init_angle self;
     hand_init_pos := hand_init_pos self;
     _random_reset_space := _random_reset_space self;
     goal_space := goal_space self; _target_pos := _target_pos self;
     target_pos := target_pos self; maxPushDist := v;
     rand_vecs := rand_vecs self |}.

Definition set_rand_vecs (self : SawyerSoccerEnvV2) (v : nat -> vec6) :=
  {| super := super self; init_config := init_config self; goal := goal self;
     obj_init_pos := obj_init_pos self; obj_init_angle := obj_init_angle self;
     hand_init_pos := hand_init_pos self;
     _random_reset_space := _random_reset_space self;
     goal_space := goal_space self; _target_pos := _target_pos self;
     target_pos := target_pos self; maxPushDist := maxPushDist self;
     rand_vecs := v |}.

(** [self.model.body_pos[mj_name2id(..., name)] = v]. *)
Definition set_body_pos (base : SawyerXYZEnv) (name : string) (v : vec3) :=
  {| tcp_center := tcp_center base; get_body_com := get_body_com base;
     touching_object := touching_object base; init_tcp := init_tcp base;
     init_left_pad := init_left_pad base;
     init_right_pad := init_right_pad base;
     _set_task_called := _set_task_called base;
     body_pos := fun n => if String.eqb n name then v else body_pos base n |}.

(** *** [__init__]

    [self] on entry is the object as the base-class constructor leaves it;
    the rendering attributes are not modelled. *)
Definition __init__ (self : SawyerSoccerEnvV2) : SawyerSoccerEnvV2 :=
  let obj_low := V3 0 0.65 0.03 in
  let obj_high := V3 0 0.65 0.03 in
  let goal_low := V3 0 0.85 0.0 in
  let goal_high := V3 0 0.85 0.0 in
  let init_config :=
    {| cfg_obj_init_pos := V3 0 0.6 0.03;
       cfg_obj_init_angle := 0.3;
       cfg_hand_init_pos := V3 0.0 0.56 0.05 |} in
  {| super := super self;
     init_config := init_config;
     goal := V3 0.0 0.9 0.03;
     obj_init_pos := cfg_obj_init_pos init_config;
     obj_init_angle := cfg_obj_init_angle init_config;
     hand_init_pos := cfg_hand_init_pos init_config;
     _random_reset_space :=
       {| low := hstack obj_low goal_low; high := hstack obj_high goal_high |};
     goal_space := {| low := goal_low; high := goal_high |};
     _target_pos := _target_pos self;
     target_pos := target_pos self;
     maxPushDist := maxPushDist self;
     rand_vecs := rand_vecs self |}.

(** ** Methods *)

(** Values of the local variables of [_gripper_caging_reward] when it
    returns; [caging_and_gripping] is the value returned. *)
Record caging_locals : Type := {
  right_caging : R;
  left_caging : R;
  right_gripping : R;
  left_gripping : R;
  y_caging : R;
  y_gripping : R;
  x_z_caging : R;
  gripper_closed : R;
  caging : R;
  gripping : R;
  caging_and_gripping : R
}.

(** Values of the local variables of [compute_reward] when it returns.
    [in_place0] and [reward0] are [in_place] and [reward] before the
    conditional reassignment; [ret_target_to_obj] is the fourth component
    of the returned tuple. *)
Record reward_locals : Type := {
  obj : vec3;
  tcp_opened : R;
  tcp_to_obj : R;
  target_to_obj : R;
  target_to_obj_init : R;
  in_place0 : R;
  goal_line : R;
  in_place : R;
  object_grasped : R;
  reward0 : R;
  reward : R;
  ret_target_to_obj : R
}.

(** The [info] dictionary of [evaluate_state]. *)
Record Info : Type := {
  success : R;
  near_object : R;
  grasp_success : R;
  grasp_reward : R;
  in_place_reward : R;
  obj_to_target : R;
  unscaled_reward : R
}.

(** The decorator of [evaluate_state] comes with the base class; going by
    its name and use, it refuses to run the method before a task is set. *)
Definition _assert_task_is_set {A : Type}
    (func : SawyerSoccerEnvV2 -> result A) (self : SawyerSoccerEnvV2)
    : result A :=
  if _set_task_called (super self) then func self else Raise RuntimeError.

(** Modelled from the spec: [_get_state_rand_vec] is inherited from the
    base class, which is not part of the sources at hand.  It draws a
    candidate vector from the concatenated object/goal box; here the draw
    is the next vector of the random source. *)
Definition _get_state_rand_vec (self : SawyerSoccerEnvV2)
    : vec6 * SawyerSoccerEnvV2 :=
  (rand_vecs self 0%nat,
   set_rand_vecs self (fun n => rand_vecs self (S n))).

(** A vector lies in a box. *)
Definition in_box (v : vec6) (b : Box vec6) : Prop :=
  j0 (low b) <= j0 v <= j0 (high b) /\
  j1 (low b) <= j1 v <= j1 (high b) /\
  j2 (low b) <= j2 v <= j2 (high b) /\
  j3 (low b) <= j3 v <= j3 (high b) /\
  j4 (low b) <= j4 v <= j4 (high b) /\
  j5 (low b) <= j5 v <= j5 (high b).

(** The random source draws from the environment's reset space. *)
Definition draws_in_space (self : SawyerSoccerEnvV2) : Prop :=
  forall n, in_box (rand_vecs self n) (_random_reset_space self).

(** The margin that [_gripper_caging_reward] hands to the tolerance
    function for the x/z alignment: the distance between the initial
    object position and the initial end effector, both with the second
    component removed, less the success margin. *)
Definition x_z_margin (self : SawyerSoccerEnvV2) : R :=
  norm3
    (sub3 (add3 (obj_init_pos self)
                (V3 0.0 (- i1 (obj_init_pos self)) 0.0))
          (add3 (init_tcp (super self))
                (V3 0.0 (- i1 (init_tcp (super self))) 0.0)))
  - 0.005.

Section Methods.

Context {U : reward_utils.Tolerance}.

Definition _gripper_caging_reward_locals
    (self : SawyerSoccerEnvV2) (action : list R)
    (obj_position : vec3) (obj_radius : R) : result caging_locals :=
  let pad_success_margin := 0.05 in
  let grip_success_margin := obj_radius + 0.01 in
  let x_z_success_margin := 0.005 in

  let tcp := tcp_center (super self) in
  let left_pad := get_body_com (super self) "leftpad" in
  let right_pad := get_body_com (super self) "rightpad" in
  let delta_object_y_left_pad := i1 left_pad - i1 obj_position in
  let delta_object_y_right_pad := i1 obj_position - i1 right_pad in
  let right_caging_margin :=
    Rabs (Rabs (i1 obj_position - i1 (init_right_pad (super self)))
          - pad_success_margin) in
  let left_caging_margin :=
    Rabs (Rabs (i1 obj_position - i1 (init_left_pad (super self)))
          - pad_success_margin) in

  right_caging <-
    reward_utils.tolerance delta_object_y_right_pad
      (obj_radius, pad_success_margin) right_caging_margin "long_tail" ;;
  left_caging <-
    reward_utils.tolerance delta_object_y_left_pad
      (obj_radius, pad_success_margin) left_caging_margin "long_tail" ;;

  right_gripping <-
    reward_utils.tolerance delta_object_y_right_pad
      (obj_radius, grip_success_margin) right_caging_margin "long_tail" ;;
  left_gripping <-
    reward_utils.tolerance delta_object_y_left_pad
      (obj_radius, grip_success_margin) left_caging_margin "long_tail" ;;

  assert_ (right_caging >=? 0) && (right_caging <=? 1) ;;
  assert_ (left_caging >=? 0) && (left_caging <=? 1) ;;

  let y_caging := reward_utils.hamacher_product right_caging left_caging in
  let y_gripping :=
    reward_utils.hamacher_product right_gripping left_gripping in

  assert_ (y_caging >=? 0) && (y_caging <=? 1) ;;

  let tcp_xz := add3 tcp (V3 0.0 (- i1 tcp) 0.0) in
  let obj_position_x_z :=
    add3 obj_position (V3 0.0 (- i1 obj_position) 0.0) in
  let tcp_obj_norm_x_z := norm3 (sub3 tcp_xz obj_position_x_z) in
  let init_obj_x_z :=
    add3 (obj_init_pos self) (V3 0.0 (- i1 (obj_init_pos self)) 0.0) in
  let init_tcp_x_z :=
    add3 (init_tcp (super self))
         (V3 0.0 (- i1 (init_tcp (super self))) 0.0) in

  let tcp_obj_x_z_margin :=
    norm3 (sub3 init_obj_x_z init_tcp_x_z) - x_z_success_margin in
  x_z_caging <-
    reward_utils.tolerance tcp_obj_norm_x_z
      (0, x_z_success_margin) tcp_obj_x_z_margin "long_tail" ;;

  assert_ (right_caging >=? 0) && (right_caging <=? 1) ;;
  action_last <- index_last action ;;
  let gripper_closed := Rmin (Rmax 0 action_last) 1 in
  assert_ (gripper_closed >=? 0) && (gripper_closed <=? 1) ;;
  let caging := reward_utils.hamacher_product y_caging x_z_caging in
  assert_ (caging >=? 0) && (caging <=? 1) ;;

  let gripping := if caging >? 0.95 then y_gripping else 0.0 in
  assert_ (gripping >=? 0) && (gripping <=? 1) ;;

  let caging_and_gripping := (caging + gripping) / 2 in
  assert_ (caging_and_gripping >=? 0) && (caging_and_gripping <=? 1) ;;

  Ok {| right_caging := right_caging;
        left_caging := left_caging;
        right_gripping := right_gripping;
        left_gripping := left_gripping;
        y_caging := y_caging;
        y_gripping := y_gripping;
        x_z_caging := x_z_caging;
        gripper_closed := gripper_closed;
        caging := caging;
        gripping := gripping;
        caging_and_gripping := caging_and_gripping |}.

Definition _gripper_caging_reward
    (self : SawyerSoccerEnvV2) (action : list R)
    (obj_position : vec3) (obj_radius : R) : result R :=
  locals <- _gripper_caging_reward_locals self action obj_position
              obj_radius ;;
  Ok (caging_and_gripping locals).

Definition compute_reward_locals
    (self : SawyerSoccerEnvV2) (action : list R) (obs : list R)
    : result reward_locals :=
  let obj_slice := slice obs 4 7 in
  tcp_opened <- index obs 3 ;;
  obj <- as_vec3 obj_slice ;;
  let x_scaling := V3 3.0 1.0 1.0 in
  let tcp_to_obj := norm3 (sub3 obj (tcp_center (super self))) in
  let target_to_obj :=
    norm3 (mul3 (sub3 obj (_target_pos self)) x_scaling) in
  let target_to_obj_init :=
    norm3 (mul3 (sub3 obj (obj_init_pos self)) x_scaling) in

  in_place0 <-
    reward_utils.tolerance target_to_obj
      (0, TARGET_RADIUS) target_to_obj_init "long_tail" ;;

  let goal_line := i1 (_target_pos self) - 0.1 in
  let in_place :=
    if (i1 obj >? goal_line)
       && (Rabs (i0 obj - i0 (_target_pos self)) >? 0.10)
    then
      match float_div (i1 obj - goal_line) (1 - goal_line) with
      | Some quotient => clip (in_place0 - 2 * quotient) 0.0 1.0
      | None =>
          (* the dividend is positive here: the quotient is plus
             infinity, the difference minus infinity, and the clip
             brings it to the lower bound *)
          0.0
      end
    else in_place0 in

  object_grasped <- _gripper_caging_reward self action obj OBJ_RADIUS ;;

  let reward0 := (3 * object_grasped) + (6.5 * in_place) in

  let reward := if target_to_obj <? TARGET_RADIUS then 10.0 else reward0 in
  Ok {| obj := obj;
        tcp_opened := tcp_opened;
        tcp_to_obj := tcp_to_obj;
        target_to_obj := target_to_obj;
        target_to_obj_init := target_to_obj_init;
        in_place0 := in_place0;
        goal_line := goal_line;
        in_place := in_place;
        object_grasped := object_grasped;
        reward0 := reward0;
        reward := reward;
        ret_target_to_obj := norm3 (sub3 obj (_target_pos self)) |}.

Definition compute_reward
    (self : SawyerSoccerEnvV2) (action : list R) (obs : list R)
    : result (R * R * R * R * R * R) :=
  l <- compute_reward_locals self action obs ;;
  Ok (reward l, tcp_to_obj l, tcp_opened l, ret_target_to_obj l,
      object_grasped l, in_place l).

(** [self.touching_object] is read and not called: what enters the
    conjunction is the method itself. *)
Definition evaluate_state_body
    (obs : list R) (action : list R) (self : SawyerSoccerEnvV2)
    : result (R * Info) :=
  let obj_slice := slice obs 4 7 in
  ret <- compute_reward self action obs ;;
  let '(reward, tcp_to_obj, tcp_opened, target_to_obj,
        object_grasped, in_place) := ret in
  obj <- as_vec3 obj_slice ;;

  let success := float (target_to_obj <=? 0.07) in
  let near_object := float (tcp_to_obj <=? 0.03) in
  let grasp_success :=
    float (method_truth (touching_object (super self))
           && (tcp_opened >? 0)
           && (i2 obj - 0.02 >? i2 (obj_init_pos self))) in
  let info :=
    {| success := success;
       near_object := near_object;
       grasp_success := grasp_success;
       grasp_reward := object_grasped;
       in_place_reward := in_place;
       obj_to_target := target_to_obj;
       unscaled_reward := reward |} in

  Ok (reward, info).

Definition evaluate_state
    (self : SawyerSoccerEnvV2) (obs : list R) (action : list R)
    : result (R * Info) :=
  _assert_task_is_set (evaluate_state_body obs action) self.

End Methods.

(** *** [reset_model]

    The hand reset, the placing of the object and the reading of the
    observation belong to the base class and the simulation.  They are
    parameters here: they may read all of [self] and they produce the
    base-class part of it, or the observation. *)
Section Reset.

Variable _reset_hand : SawyerSoccerEnvV2 -> SawyerXYZEnv.
Variable _set_obj_xyz : vec3 -> SawyerSoccerEnvV2 -> SawyerXYZEnv.
Variable _get_obs : SawyerSoccerEnvV2 -> list R.

(** The [while] loop; [fuel] bounds the number of times its body runs. *)
Fixpoint reset_model_loop
    (fuel : nat) (goal_pos : vec6) (self : SawyerSoccerEnvV2)
    : option (vec6 * SawyerSoccerEnvV2) :=
  if norm2 (sub2 (firsttwo6 goal_pos) (firsttwo3 (_target_pos self)))
     <? 0.15
  then
    match fuel with
    | O => None
    | S fuel' =>
        let '(goal_pos, self) := _get_state_rand_vec self in
        let self := set__target_pos self (from3 goal_pos) in
        reset_model_loop fuel' goal_pos self
    end
  else Some (goal_pos, self).

Definition reset_model (fuel : nat) (self : SawyerSoccerEnvV2)
    : option (list R * SawyerSoccerEnvV2) :=
  let self := set_super self (_reset_hand self) in
  let self := set__target_pos self (goal self) in
  let self :=
    set_obj_init_angle self (cfg_obj_init_angle (init_config self)) in

  let '(goal_pos, self) := _get_state_rand_vec self in
  let self := set__target_pos self (from3 goal_pos) in
  match reset_model_loop fuel goal_pos self with
  | None => None
  | Some (goal_pos, self) =>
      let self := set_target_pos self (_target_pos self) in
      let self :=
        set_obj_init_pos self
          (concatenate (firsttwo6 goal_pos) (i2 (obj_init_pos self))) in
      let self :=
        set_super self
          (set_body_pos (super self) "goal_whole" (_target_pos self)) in
      let self := set_super self (_set_obj_xyz (obj_init_pos self) self) in
      let self :=
        set_maxPushDist self
          (norm2 (sub2 (firsttwo3 (obj_init_pos self))
                       (firsttwo3 (_target_pos self)))) in
      Some (_get_obs self, self)
  end.

End Reset.

(** ** Concrete environments *)

Module Examples.

(** A simulation state with the gripper above the object's start. *)
Definition base : SawyerXYZEnv :=
  {| tcp_center := V3 0 0.6 0.2;
     get_body_com := fun name =>
       if String.eqb name "leftpad" then V3 0 0.63 0.2
       else if String.eqb name "rightpad" then V3 0 0.57 0.2
       else V3 0 0.6 0.03;
     touching_object := fun _ => true;
     init_tcp := V3 0 0.6 0.2;
     init_left_pad := V3 0 0.63 0.2;
     init_right_pad := V3 0 0.57 0.2;
     _set_task_called := true;
     body_pos := fun _ => V3 0 0 0 |}.

(** The object as the constructor finds it, with the target at the
    centre of the goal box and a random source that draws [v] forever. *)
Definition blank (v : vec6) : SawyerSoccerEnvV2 :=
  {| super := base;
     init_config :=
       {| cfg_obj_init_pos := V3 0 0 0; cfg_obj_init_angle := 0;
          cfg_hand_init_pos := V3 0 0 0 |};
     goal := V3 0 0 0;
     obj_init_pos := V3 0 0 0;
     obj_init_angle := 0;
     hand_init_pos := V3 0 0 0;
     _random_reset_space :=
       {| low := V6 0 0 0 0 0 0; high := V6 0 0 0 0 0 0 |};
     goal_space := {| low := V3 0 0 0; high := V3 0 0 0 |};
     _target_pos := V3 0 0.85 0;
     target_pos := V3 0 0.85 0;
     maxPushDist := 0;
     rand_vecs := fun _ => v |}.

(** The environment after construction. *)
Definition env : SawyerSoccerEnvV2 :=
  __init__ (blank (V6 0 0.65 0.03 0 0.85 0)).


(** Collaborators that leave the simulation alone. *)
Definition reset_hand_id (self : SawyerSoccerEnvV2) : SawyerXYZEnv :=
  super self.
Definition set_obj_xyz_id (_ : vec3) (self : SawyerSoccerEnvV2)
    : SawyerXYZEnv := super self.
Definition get_obs_zero (_ : SawyerSoccerEnvV2) : list R :=
  [0; 0; 0; 1; 0; 0.65; 0.03].

Definition action : list R := [0; 0; 0; 0.5].

(** The object 3 cm to the side of the target, gripper open. *)
Definition obs_beside_target : list R := [0; 0.6; 0.2; 1; 0.03; 0.85; 0].

(** The object lifted 5 cm at its start, gripper open. *)
Definition obs_lifted : list R := [0; 0.6; 0.2; 1; 0; 0.6; 0.08].

End Examples.

(** ** Episodes *)

Section Episodes.

Variable _reset_hand : SawyerSoccerEnvV2 -> SawyerXYZEnv.
Variable _set_obj_xyz : vec3 -> SawyerSoccerEnvV2 -> SawyerXYZEnv.
Variable _get_obs : SawyerSoccerEnvV2 -> list R.

(** [reset_model] called [n] times in a row on the same object, each call
    with [fuel] for its loop. *)
Fixpoint reset_model_repeat
    (n fuel : nat) (self : SawyerSoccerEnvV2) : option SawyerSoccerEnvV2 :=
  match n with
  | O => Some self
  | S n' =>
      match reset_model _reset_hand _set_obj_xyz _get_obs fuel self with
      | None => None
      | Some (_, self') => reset_model_repeat n' fuel self'
      end
  end.

End Episodes.

Module MoreExamples.

(** A reset space whose goal box reaches from 0.70 to 0.85 along the second
    axis, and a random source that first draws the goal 5 cm from the
    object and from then on 20 cm from it. *)
Definition retry_env : SawyerSoccerEnvV2 :=
  let e := Examples.env in
  {| super := super e; init_config := init_config e; goal := goal e;
     obj_init_pos := obj_init_pos e; obj_init_angle := obj_init_angle e;
     hand_init_pos := hand_init_pos e;
     _random_reset_space :=
       {| low := hstack (V3 0 0.65 0.03) (V3 0 0.70 0.0);
          high := hstack (V3 0 0.65 0.03) (V3 0 0.85 0.0) |};
     goal_space := {| low := V3 0 0.70 0.0; high := V3 0 0.85 0.0 |};
     _target_pos := _target_pos e; target_pos := target_pos e;
     maxPushDist := maxPushDist e;
     rand_vecs := fun n =>
       match n with
       | O => V6 0 0.65 0.03 0 0.70 0
       | S _ => V6 0 0.65 0.03 0 0.85 0
       end |}.

(** A reset space whose goal box is the object's box: every draw puts the
    goal on the object. *)
Definition stuck_env : SawyerSoccerEnvV2 :=
  let e := Examples.env in
  {| super := super e; init_config := init_config e; goal := goal e;
     obj_init_pos := obj_init_pos e; obj_init_angle := obj_init_angle e;
     hand_init_pos := hand_init_pos e;
     _random_reset_space :=
       {| low := hstack (V3 0 0.65 0.03) (V3 0 0.65 0.0);
          high := hstack (V3 0 0.65 0.03) (V3 0 0.65 0.0) |};
     goal_space := {| low := V3 0 0.65 0.0; high := V3 0 0.65 0.0 |};
     _target_pos := _target_pos e; target_pos := target_pos e;
     maxPushDist := maxPushDist e;
     rand_vecs := fun _ => V6 0 0.65 0.03 0 0.65 0 |}.

(** The gripper closed on the object: pads 18 mm to either side of it,
    the end effector straight above it. *)
Definition grasping_base : SawyerXYZEnv :=
  {| tcp_center := V3 0 0.6 0.03;
     get_body_com := fun name =>
       if String.eqb name "leftpad" then V3 0 0.618 0.03
       else if String.eqb name "rightpad" then V3 0 0.582 0.03
       else V3 0 0.6 0.03;
     touching_object := fun _ => true;
     init_tcp := V3 0 0.6 0.2;
     init_left_pad := V3 0 0.63 0.2;
     init_right_pad := V3 0 0.57 0.2;
     _set_task_called := true;
     body_pos := fun _ => V3 0 0 0 |}.

Definition grasping_env : SawyerSoccerEnvV2 :=
  set_super Examples.env grasping_base.

(** A simulation that answers every placing of the object with the same
    state. *)
Definition set_obj_xyz_base (_ : vec3) (_ : SawyerSoccerEnvV2)
    : SawyerXYZEnv := Examples.base.

(** The environment as constructed, with the gripper touching nothing. *)
Definition no_contact_base : SawyerXYZEnv :=
  {| tcp_center := tcp_center Examples.base;
     get_body_com := get_body_com Examples.base;
     touching_object := fun _ => false;
     init_tcp := init_tcp Examples.base;
     init_left_pad := init_left_pad Examples.base;
     init_right_pad := init_right_pad Examples.base;
     _set_task_called := true;
     body_pos := body_pos Examples.base |}.

Definition no_contact_env : SawyerSoccerEnvV2 :=
  set_super Examples.env no_contact_base.

(** The environment as constructed, with the object's initial position
    straight below the initial end effector. *)
Definition below_hand_env : SawyerSoccerEnvV2 :=
  set_obj_init_pos Examples.env (V3 0 0.6 0.2).

(** The environment as constructed, with the target 1.1 along the second
    axis, so that the goal line is at 1. *)
Definition far_goal_env : SawyerSoccerEnvV2 :=
  set__target_pos Examples.env (V3 0 1.1 0).

(** The object past that goal line and 20 cm to the side. *)
Definition obs_past_far_goal : list R := [0; 0.6; 0.2; 1; 0.2; 1.05; 0].

(** The object past the goal line and 20 cm to the side of the target. *)
Definition obs_past_goal_line : list R := [0; 0.6; 0.2; 1; 0.2; 0.8; 0].

(** The object on the target. *)
Definition obs_on_target : list R := [0; 0.6; 0.2; 1; 0; 0.85; 0].

(** The object at the place where the constructor's reset space puts it. *)
Definition obs_at_start : list R := [0; 0.6; 0.2; 1; 0; 0.65; 0.03].

End MoreExamples.

(** ** Distances named in the statements *)

(** The Euclidean distance between two positions. *)
Definition euclidean_distance (p q : vec3) : R :=
  sqrt ((i0 p - i0 q) * (i0 p - i0 q) + (i1 p - i1 q) * (i1 p - i1 q)
        + (i2 p - i2 q) * (i2 p - i2 q)).

(** The Euclidean distance after the first-axis offset is multiplied by 3
    and the other two by 1. *)
Definition weighted_distance (p q : vec3) : R :=
  sqrt ((i0 p - i0 q) * 3.0 * ((i0 p - i0 q) * 3.0)
        + (i1 p - i1 q) * 1.0 * ((i1 p - i1 q) * 1.0)
        + (i2 p - i2 q) * 1.0 * ((i2 p - i2 q) * 1.0)).

(** The distance between the first two components of the object's and of
    the goal's half of a random vector. *)
Definition separation (v : vec6) : R :=
  sqrt ((j0 v - j3 v) * (j0 v - j3 v) + (j1 v - j4 v) * (j1 v - j4 v)).

(** * Properties *)

(** ** Boolean comparisons *)

Lemma Rleb_true (x y : R) : (x <=? y) = true <-> x <= y.
Proof.
  unfold Rleb. destruct (Rle_dec x y); split; intros; congruence || lra.
Qed.

Lemma Rltb_true (x y : R) : (x <? y) = true <-> x < y.
Proof.
  unfold Rltb. destruct (Rlt_dec x y); split; intros; congruence || lra.
Qed.

Lemma Rgeb_true (x y : R) : (x >=? y) = true <-> x >= y.
Proof. unfold Rgeb. rewrite Rleb_true. lra. Qed.

Lemma Rgtb_true (x y : R) : (x >? y) = true <-> x > y.
Proof. unfold Rgtb. rewrite Rltb_true. lra. Qed.

Lemma Reqb_true (x y : R) : (x =? y) = true <-> x = y.
Proof. unfold Reqb. destruct (Req_dec_T x y); split; intros; congruence. Qed.

Lemma Rltb_false (x y : R) : (x <? y) = false <-> ~ x < y.
Proof. rewrite <- Rltb_true. destruct (x <? y); split; congruence. Qed.

Lemma Rgtb_false (x y : R) : (x >? y) = false <-> ~ x > y.
Proof. rewrite <- Rgtb_true. destruct (x >? y); split; congruence. Qed.

Lemma float_one (b : bool) : float b = 1 <-> b = true.
Proof. destruct b; simpl; split; intros; congruence || lra. Qed.

Lemma float_bit (b : bool) : float b = 0 \/ float b = 1.
Proof. destruct b; simpl; auto. Qed.

(** The condition of an in-range assertion. *)
Lemma in_range_check (x : R) :
  0 <= x <= 1 -> (x >=? 0) && (x <=? 1) = true.
Proof.
  intros [H0 H1]. apply andb_true_intro. split.
  - apply Rgeb_true. lra.
  - apply Rleb_true. exact H1.
Qed.

(** ** The Hamacher product *)

Section Hamacher.

Import reward_utils.

Lemma hamacher_zero_zero : hamacher_product 0 0 = 0.
Proof.
  unfold hamacher_product.
  replace (0 =? 0) with true by (symmetry; apply Reqb_true; reflexivity).
  reflexivity.
Qed.

Lemma hamacher_formula (a b : R) :
  ~ (a = 0 /\ b = 0) -> hamacher_product a b = (a * b) / (a + b - a * b).
Proof.
  intros H. unfold hamacher_product.
  destruct (a =? 0) eqn:Ea; [destruct (b =? 0) eqn:Eb |]; simpl; trivial.
  exfalso. apply H. split; apply Reqb_true; assumption.
Qed.

(** On the unit square the denominator vanishes only at the origin. *)
Lemma hamacher_denominator_pos (a b : R) :
  0 <= a <= 1 -> 0 <= b <= 1 -> ~ (a = 0 /\ b = 0) -> 0 < a + b - a * b.
Proof.
  intros Ha Hb H.
  destruct (Req_dec_T a 0) as [Ea | Ea].
  - subst a. assert (b <> 0) by (intros E; apply H; auto). lra.
  - assert (0 < a) by lra. nra.
Qed.

Lemma hamacher_comm (a b : R) : hamacher_product a b = hamacher_product b a.
Proof.
  unfold hamacher_product. rewrite (andb_comm (b =? 0)).
  destruct ((a =? 0) && (b =? 0)); trivial.
  f_equal; ring.
Qed.

Lemma hamacher_zero_r (a : R) : 0 <= a <= 1 -> hamacher_product a 0 = 0.
Proof.
  intros Ha. destruct (Req_dec_T a 0) as [E | E].
  - subst a. apply hamacher_zero_zero.
  - rewrite hamacher_formula by tauto. unfold Rdiv. ring.
Qed.

Lemma hamacher_zero_l (b : R) : 0 <= b <= 1 -> hamacher_product 0 b = 0.
Proof. intros Hb. rewrite hamacher_comm. apply hamacher_zero_r, Hb. Qed.

Lemma hamacher_one_one : hamacher_product 1 1 = 1.
Proof. rewrite hamacher_formula by lra. field. Qed.

Lemma hamacher_range (a b : R) :
  0 <= a <= 1 -> 0 <= b <= 1 -> 0 <= hamacher_product a b <= 1.
Proof.
  intros Ha Hb.
  destruct (Req_dec_T a 0) as [Ea | Ea];
    [destruct (Req_dec_T b 0) as [Eb | Eb] |].
  - subst. rewrite hamacher_zero_zero. lra.
  - subst a. rewrite hamacher_zero_l by exact Hb. lra.
  - rewrite hamacher_formula by tauto.
    assert (D : 0 < a + b - a * b)
      by (apply hamacher_denominator_pos; tauto).
    split.
    + apply Rmult_le_pos; [nra | left; apply Rinv_0_lt_compat, D].
    + apply Rmult_le_reg_r with (a + b - a * b); [exact D |].
      unfold Rdiv. rewrite Rmult_assoc, Rinv_l by lra. nra.
Qed.

Lemma hamacher_mono_l (a a' b : R) :
  0 <= a <= a' -> a' <= 1 -> 0 <= b <= 1 ->
  hamacher_product a b <= hamacher_product a' b.
Proof.
  intros Ha Ha' Hb.
  destruct (Req_dec_T a 0) as [Ea | Ea].
  - subst a. rewrite hamacher_zero_l by exact Hb.
    apply hamacher_range; lra.
  - assert (D : 0 < a + b - a * b)
      by (apply hamacher_denominator_pos; lra || tauto).
    assert (D' : 0 < a' + b - a' * b)
      by (apply hamacher_denominator_pos; lra || (intros [E _]; lra)).
    rewrite !hamacher_formula by (intros [E _]; lra).
    apply Rmult_le_reg_r with ((a + b - a * b) * (a' + b - a' * b)).
    + apply Rmult_lt_0_compat; assumption.
    + replace (a * b / (a + b - a * b) *
               ((a + b - a * b) * (a' + b - a' * b)))
        with (a * b * (a' + b - a' * b)) by (field; lra).
      replace (a' * b / (a' + b - a' * b) *
               ((a + b - a * b) * (a' + b - a' * b)))
        with (a' * b * (a + b - a * b)) by (field; lra).
      assert (0 <= (a' - a) * (b * b)) by (apply Rmult_le_pos; nra).
      nra.
Qed.

Lemma hamacher_mono_r (a b b' : R) :
  0 <= a <= 1 -> 0 <= b <= b' -> b' <= 1 ->
  hamacher_product a b <= hamacher_product a b'.
Proof.
  intros Ha Hb Hb'. rewrite (hamacher_comm a b), (hamacher_comm a b').
  apply hamacher_mono_l; assumption.
Qed.

End Hamacher.


(** ** The tolerance contract *)

Lemma Rleb_false (x y : R) : (x <=? y) = false <-> ~ x <= y.
Proof. rewrite <- Rleb_true. destruct (x <=? y); split; congruence. Qed.

Section LongTail.

Import reward_utils.

Lemma long_tail_curve_range (d : R) : 0 <= long_tail_curve d <= 1.
Proof.
  unfold long_tail_curve.
  assert (H : 1 <= d * 3 * (d * 3) + 1) by nra.
  split.
  - apply Rmult_le_pos; [lra | left; apply Rinv_0_lt_compat; lra].
  - apply Rmult_le_reg_r with (d * 3 * (d * 3) + 1); [lra |].
    unfold Rdiv. rewrite Rmult_assoc, Rinv_l by lra. lra.
Qed.

(** The two checks at the head of the function pass on a valid call. *)
Lemma long_tail_tolerance_valid x lower upper margin sigmoid :
  lower <= upper -> 0 <= margin ->
  long_tail_tolerance x (lower, upper) margin sigmoid
  = (if (lower <=? x) && (x <=? upper) then Ok 1
     else if margin =? 0 then Ok 0
     else Ok (long_tail_curve
                ((if x <? lower then lower - x else x - upper) / margin))).
Proof.
  intros Hb Hm. unfold long_tail_tolerance.
  replace (lower >? upper) with false
    by (symmetry; apply Rgtb_false; lra).
  replace (margin <? 0) with false
    by (symmetry; apply Rltb_false; lra).
  reflexivity.
Qed.

Lemma long_tail_tolerance_invalid x lower upper margin sigmoid :
  lower > upper \/ margin < 0 ->
  long_tail_tolerance x (lower, upper) margin sigmoid = Raise ValueError.
Proof.
  intros H. unfold long_tail_tolerance.
  destruct (lower >? upper) eqn:Eb; [reflexivity |].
  apply Rgtb_false in Eb.
  destruct H as [H | H]; [contradiction |].
  apply Rltb_true in H. rewrite H. reflexivity.
Qed.

Lemma long_tail_tolerance_range x lower upper margin :
  lower <= upper -> 0 <= margin ->
  exists v,
    long_tail_tolerance x (lower, upper) margin "long_tail" = Ok v /\
    0 <= v <= 1.
Proof.
  intros Hb Hm. rewrite long_tail_tolerance_valid by assumption.
  destruct ((lower <=? x) && (x <=? upper));
    [exists 1; split; [reflexivity | lra] |].
  destruct (margin =? 0); [exists 0; split; [reflexivity | lra] |].
  eexists. split; [reflexivity | apply long_tail_curve_range].
Qed.

Lemma long_tail_tolerance_inside x lower upper margin :
  lower <= x <= upper -> 0 <= margin ->
  long_tail_tolerance x (lower, upper) margin "long_tail" = Ok 1.
Proof.
  intros [Hl Hu] Hm. rewrite long_tail_tolerance_valid by lra.
  apply Rleb_true in Hl, Hu. rewrite Hl, Hu. reflexivity.
Qed.

Lemma long_tail_tolerance_hard x lower upper :
  lower <= upper -> ~ (lower <= x <= upper) ->
  long_tail_tolerance x (lower, upper) 0 "long_tail" = Ok 0.
Proof.
  intros Hb H. rewrite long_tail_tolerance_valid by lra.
  destruct ((lower <=? x) && (x <=? upper)) eqn:E.
  - exfalso. apply H. apply andb_prop in E. destruct E as [El Eu].
    split; apply Rleb_true; assumption.
  - replace (0 =? 0) with true by (symmetry; apply Reqb_true; reflexivity).
    reflexivity.
Qed.

End LongTail.

#[export] Instance long_tail : reward_utils.Tolerance :=
  {| reward_utils.tolerance := reward_utils.long_tail_tolerance;
     reward_utils.tolerance_invalid := long_tail_tolerance_invalid;
     reward_utils.tolerance_range := long_tail_tolerance_range;
     reward_utils.tolerance_inside := long_tail_tolerance_inside;
     reward_utils.tolerance_hard := long_tail_tolerance_hard |}.

Section ToleranceContract.

Context {U : reward_utils.Tolerance}.
Import reward_utils.

(** A call for the long-tail shape either is valid and gives a score in
    the unit interval, or is not and raises [ValueError]. *)
Lemma tolerance_cases x lower upper margin :
  (lower <= upper /\ 0 <= margin /\
   exists v,
     tolerance x (lower, upper) margin "long_tail" = Ok v /\ 0 <= v <= 1) \/
  ((lower > upper \/ margin < 0) /\
   tolerance x (lower, upper) margin "long_tail" = Raise ValueError).
Proof.
  destruct (Rle_dec lower upper) as [Hb | Hb];
    [destruct (Rle_dec 0 margin) as [Hm | Hm] |].
  - left. split; [exact Hb |]. split; [exact Hm |].
    apply tolerance_range; assumption.
  - right. split; [right; lra | apply tolerance_invalid; right; lra].
  - right. split; [left; lra | apply tolerance_invalid; left; lra].
Qed.

(** A score that comes back was asked for with a valid call. *)
Lemma tolerance_ok x lower upper margin v :
  tolerance x (lower, upper) margin "long_tail" = Ok v ->
  lower <= upper /\ 0 <= margin /\ 0 <= v <= 1.
Proof.
  intros H.
  destruct (tolerance_cases x lower upper margin)
    as [(Hb & Hm & v' & Hv & Rv) | [_ Hraise]].
  - rewrite H in Hv. injection Hv as <-. tauto.
  - rewrite H in Hraise. discriminate.
Qed.

End ToleranceContract.

(** ** Access to observations and actions *)

Lemma index_last_nonempty (action : list R) :
  action <> [] -> index_last action = Ok (last action 0).
Proof. destruct action; [congruence | reflexivity]. Qed.

Lemma obs_layout (obs : list R) :
  (7 <= List.length obs)%nat ->
  index obs 3 = Ok (nth 3 obs 0) /\
  as_vec3 (slice obs 4 7)
  = Ok (V3 (nth 4 obs 0) (nth 5 obs 0) (nth 6 obs 0)).
Proof.
  intros H.
  do 7 (destruct obs as [| ? obs]; [simpl in H; lia |]).
  split; reflexivity.
Qed.

Lemma clamp_range (v : R) : 0 <= Rmin (Rmax 0 v) 1 <= 1.
Proof.
  unfold Rmin, Rmax.
  destruct (Rle_dec 0 v); destruct (Rle_dec _ 1); lra.
Qed.

Lemma clip_range (v : R) : 0 <= clip v 0.0 1.0 <= 1.
Proof.
  unfold clip, Rmin, Rmax.
  destruct (Rle_dec v 0.0); destruct (Rle_dec _ 1.0); lra.
Qed.


(** ** Running the caging reward *)

(** A goal [0 <= e <= 1] for a local of the caging reward. *)
Ltac unit_interval :=
  match goal with
  | |- 0 <= reward_utils.hamacher_product _ _ <= 1 =>
      apply hamacher_range; unit_interval
  | |- 0 <= Rmin (Rmax 0 _) 1 <= 1 => apply clamp_range
  | |- 0 <= (if ?c then _ else _) <= 1 => destruct c; unit_interval
  | |- 0 <= (?a + ?b) / 2 <= 1 =>
      let Ha := fresh in
      let Hb := fresh in
      assert (Ha : 0 <= a <= 1) by unit_interval;
      assert (Hb : 0 <= b <= 1) by unit_interval;
      lra
  | |- _ => first [assumption | lra]
  end.

(** One step of a run: a valid call of the tolerance function gives a
    score, an assertion on a value of the unit interval passes. *)
Ltac caging_step :=
  first
    [ match goal with
      | |- context [bind (reward_utils.tolerance ?x (?lo, ?hi) ?m
                            "long_tail") _] =>
          let v := fresh "v" in
          let E := fresh "E" in
          let Rg := fresh "Rg" in
          destruct (reward_utils.tolerance_range x lo hi m)
            as (v & E & Rg);
          [ first [assumption | lra | apply Rabs_pos]
          | first [assumption | lra | apply Rabs_pos]
          | rewrite E; cbn [bind] ]
      end
    | rewrite in_range_check by unit_interval ].

Section Caging.

Context {U : reward_utils.Tolerance}.
Import reward_utils.

(** A radius beyond the pad margin turns the caging bounds around: the
    first call of the tolerance function raises. *)
Lemma caging_locals_wide_radius self action obj_position obj_radius :
  obj_radius > 0.05 ->
  _gripper_caging_reward_locals self action obj_position obj_radius
  = Raise ValueError.
Proof.
  intros Hr. unfold _gripper_caging_reward_locals. cbv zeta.
  rewrite tolerance_invalid by (left; exact Hr). reflexivity.
Qed.

(** A negative margin for the x/z alignment makes its call raise, before
    the action is looked at. *)
Lemma caging_locals_negative_margin self action obj_position obj_radius :
  obj_radius <= 0.05 -> x_z_margin self < 0 ->
  _gripper_caging_reward_locals self action obj_position obj_radius
  = Raise ValueError.
Proof.
  intros Hr Hm. unfold _gripper_caging_reward_locals. cbv zeta.
  repeat caging_step.
  rewrite tolerance_invalid by (right; exact Hm). reflexivity.
Qed.

(** With no action component to read, the run fails at [action[-1]]. *)
Lemma caging_locals_empty_action self obj_position obj_radius :
  obj_radius <= 0.05 -> 0 <= x_z_margin self ->
  _gripper_caging_reward_locals self [] obj_position obj_radius
  = Raise IndexError.
Proof.
  intros Hr Hm. unfold _gripper_caging_reward_locals. cbv zeta.
  repeat caging_step. reflexivity.
Qed.

(** The locals of a run that returns, each in terms of the inputs and of
    the locals before it.  Only [gripper_closed] mentions the action. *)
Lemma caging_locals_run self action obj_position obj_radius :
  action <> [] -> obj_radius <= 0.05 -> 0 <= x_z_margin self ->
  exists l,
    _gripper_caging_reward_locals self action obj_position obj_radius
    = Ok l /\
    tolerance (i1 obj_position - i1 (get_body_com (super self) "rightpad"))
      (obj_radius, 0.05)
      (Rabs (Rabs (i1 obj_position - i1 (init_right_pad (super self)))
             - 0.05)) "long_tail"
    = Ok (right_caging l) /\
    tolerance (i1 (get_body_com (super self) "leftpad") - i1 obj_position)
      (obj_radius, 0.05)
      (Rabs (Rabs (i1 obj_position - i1 (init_left_pad (super self)))
             - 0.05)) "long_tail"
    = Ok (left_caging l) /\
    tolerance (i1 obj_position - i1 (get_body_com (super self) "rightpad"))
      (obj_radius, obj_radius + 0.01)
      (Rabs (Rabs (i1 obj_position - i1 (init_right_pad (super self)))
             - 0.05)) "long_tail"
    = Ok (right_gripping l) /\
    tolerance (i1 (get_body_com (super self) "leftpad") - i1 obj_position)
      (obj_radius, obj_radius + 0.01)
      (Rabs (Rabs (i1 obj_position - i1 (init_left_pad (super self)))
             - 0.05)) "long_tail"
    = Ok (left_gripping l) /\
    y_caging l = hamacher_product (right_caging l) (left_caging l) /\
    y_gripping l = hamacher_product (right_gripping l) (left_gripping l) /\
    tolerance
      (norm3 (sub3 (add3 (tcp_center (super self))
                         (V3 0.0 (- i1 (tcp_center (super self))) 0.0))
                   (add3 obj_position (V3 0.0 (- i1 obj_position) 0.0))))
      (0, 0.005) (x_z_margin self) "long_tail"
    = Ok (x_z_caging l) /\
    gripper_closed l = Rmin (Rmax 0 (last action 0)) 1 /\
    caging l = hamacher_product (y_caging l) (x_z_caging l) /\
    gripping l = (if caging l >? 0.95 then y_gripping l else 0.0) /\
    caging_and_gripping l = (caging l + gripping l) / 2.
Proof.
  intros Ha Hr Hm. unfold _gripper_caging_reward_locals. cbv zeta.
  repeat caging_step.
  rewrite (index_last_nonempty action Ha). cbn [bind].
  repeat caging_step.
  eexists. split; [reflexivity |]. cbn.
  repeat split; first [assumption | reflexivity].
Qed.

(** A run returns only on a radius within the pad margin, a margin for
    the x/z alignment that is not negative, and an action that is not
    empty. *)
Lemma caging_locals_returns self action obj_position obj_radius l :
  _gripper_caging_reward_locals self action obj_position obj_radius = Ok l ->
  action <> [] /\ obj_radius <= 0.05 /\ 0 <= x_z_margin self.
Proof.
  intros Hl.
  destruct (Rle_dec obj_radius 0.05) as [Hr | Hr].
  - destruct (Rle_dec 0 (x_z_margin self)) as [Hm | Hm].
    + repeat split; trivial. intros ->.
      rewrite caging_locals_empty_action in Hl by assumption. discriminate.
    + rewrite caging_locals_negative_margin in Hl by lra. discriminate.
  - rewrite caging_locals_wide_radius in Hl by lra. discriminate.
Qed.

(** Every local of a run that returns lies in the unit interval. *)
Lemma caging_locals_range self action obj_position obj_radius l :
  _gripper_caging_reward_locals self action obj_position obj_radius = Ok l ->
  (0 <= right_caging l <= 1) /\ (0 <= left_caging l <= 1) /\
  (0 <= right_gripping l <= 1) /\ (0 <= left_gripping l <= 1) /\
  (0 <= y_caging l <= 1) /\ (0 <= y_gripping l <= 1) /\
  (0 <= x_z_caging l <= 1) /\ (0 <= gripper_closed l <= 1) /\
  (0 <= caging l <= 1) /\ (0 <= gripping l <= 1) /\
  (0 <= caging_and_gripping l <= 1).
Proof.
  intros Hl.
  destruct (caging_locals_returns _ _ _ _ _ Hl) as (Ha & Hr & Hm).
  destruct (caging_locals_run self action obj_position obj_radius Ha Hr Hm)
    as (l' & Hl' & Hrc & Hlc & Hrg & Hlg & Hyc & Hyg & Hxz & Hgc & Hc
        & Hg & Hcg).
  rewrite Hl in Hl'. injection Hl' as <-.
  assert (Rrc : 0 <= right_caging l <= 1) by apply (tolerance_ok _ _ _ _ _ Hrc).
  assert (Rlc : 0 <= left_caging l <= 1) by apply (tolerance_ok _ _ _ _ _ Hlc).
  assert (Rrg : 0 <= right_gripping l <= 1)
    by apply (tolerance_ok _ _ _ _ _ Hrg).
  assert (Rlg : 0 <= left_gripping l <= 1)
    by apply (tolerance_ok _ _ _ _ _ Hlg).
  assert (Rxz : 0 <= x_z_caging l <= 1) by apply (tolerance_ok _ _ _ _ _ Hxz).
  assert (Ryc : 0 <= y_caging l <= 1)
    by (rewrite Hyc; apply hamacher_range; assumption).
  assert (Ryg : 0 <= y_gripping l <= 1)
    by (rewrite Hyg; apply hamacher_range; assumption).
  assert (Rc : 0 <= caging l <= 1)
    by (rewrite Hc; apply hamacher_range; assumption).
  assert (Rg : 0 <= gripping l <= 1)
    by (rewrite Hg; destruct (caging l >? 0.95); [assumption | lra]).
  assert (Rgc : 0 <= gripper_closed l <= 1)
    by (rewrite Hgc; apply clamp_range).
  repeat split; try tauto; rewrite Hcg; lra.
Qed.

Lemma gripper_caging_reward_run self action obj_position obj_radius l :
  _gripper_caging_reward_locals self action obj_position obj_radius = Ok l ->
  _gripper_caging_reward self action obj_position obj_radius
  = Ok (caging_and_gripping l).
Proof. intros H. unfold _gripper_caging_reward. rewrite H. reflexivity. Qed.

Lemma gripper_caging_reward_raises self action obj_position obj_radius e :
  _gripper_caging_reward_locals self action obj_position obj_radius
  = Raise e ->
  _gripper_caging_reward self action obj_position obj_radius = Raise e.
Proof. intros H. unfold _gripper_caging_reward. rewrite H. reflexivity. Qed.

(** No run ends in a failed assertion, whatever the inputs. *)
Lemma caging_locals_no_assertion self action obj_position obj_radius :
  _gripper_caging_reward_locals self action obj_position obj_radius
  <> Raise AssertionError.
Proof.
  destruct (Rle_dec obj_radius 0.05) as [Hr | Hr];
    [destruct (Rle_dec 0 (x_z_margin self)) as [Hm | Hm];
     [destruct action as [| a action] |] |].
  - rewrite caging_locals_empty_action by assumption. discriminate.
  - destruct (caging_locals_run self (a :: action) obj_position obj_radius)
      as (l & Hl & _); [discriminate | assumption | assumption |].
    rewrite Hl. discriminate.
  - rewrite caging_locals_negative_margin by lra. discriminate.
  - rewrite caging_locals_wide_radius by lra. discriminate.
Qed.

End Caging.
(** ** Running the reward composer *)

Lemma sqrt_lt_of_square (x y : R) : 0 <= x -> 0 < y -> x < y * y -> sqrt x < y.
Proof.
  intros Hx Hy H. rewrite <- (sqrt_square y) by lra.
  apply sqrt_lt_1; nra.
Qed.

Lemma sqrt_ge_of_square (x y : R) : 0 <= y -> y * y <= x -> y <= sqrt x.
Proof.
  intros Hy H. rewrite <- (sqrt_square y) at 1 by lra.
  apply sqrt_le_1; nra.
Qed.

Lemma sqrt_eq_of_square (x y : R) : 0 <= y -> y * y = x -> sqrt x = y.
Proof. intros Hy H. apply sqrt_lem_1; nra. Qed.


Lemma OBJ_RADIUS_fits : OBJ_RADIUS <= 0.05.
Proof. unfold OBJ_RADIUS. lra. Qed.

Section Composer.

Context {U : reward_utils.Tolerance}.
Import reward_utils.

(** The locals of a run of [compute_reward] that returns, each in terms of
    the inputs and of the locals before it; [cl] holds the locals of the
    call to the caging reward. *)
Lemma compute_reward_locals_run self action obs :
  (7 <= List.length obs)%nat -> action <> [] -> 0 <= x_z_margin self ->
  exists l cl,
    compute_reward_locals self action obs = Ok l /\
    _gripper_caging_reward_locals self action (obj l) OBJ_RADIUS = Ok cl /\
    obj l = V3 (nth 4 obs 0) (nth 5 obs 0) (nth 6 obs 0) /\
    tcp_opened l = nth 3 obs 0 /\
    tcp_to_obj l = norm3 (sub3 (obj l) (tcp_center (super self))) /\
    target_to_obj l
    = norm3 (mul3 (sub3 (obj l) (_target_pos self)) (V3 3.0 1.0 1.0)) /\
    target_to_obj_init l
    = norm3 (mul3 (sub3 (obj l) (obj_init_pos self)) (V3 3.0 1.0 1.0)) /\
    tolerance (target_to_obj l) (0, TARGET_RADIUS)
      (target_to_obj_init l) "long_tail"
    = Ok (in_place0 l) /\
    goal_line l = i1 (_target_pos self) - 0.1 /\
    in_place l
    = (if (i1 (obj l) >? goal_line l)
          && (Rabs (i0 (obj l) - i0 (_target_pos self)) >? 0.10)
       then
         match float_div (i1 (obj l) - goal_line l) (1 - goal_line l) with
         | Some quotient => clip (in_place0 l - 2 * quotient) 0.0 1.0
         | None => 0.0
         end
       else in_place0 l) /\
    object_grasped l = caging_and_gripping cl /\
    reward0 l = 3 * object_grasped l + 6.5 * in_place l /\
    reward l
    = (if target_to_obj l <? TARGET_RADIUS then 10.0 else reward0 l) /\
    ret_target_to_obj l = norm3 (sub3 (obj l) (_target_pos self)).
Proof.
  intros Hobs Hact Hm.
  destruct (obs_layout obs Hobs) as [H3 H47].
  destruct (caging_locals_run self action
              (V3 (nth 4 obs 0) (nth 5 obs 0) (nth 6 obs 0)) OBJ_RADIUS
              Hact OBJ_RADIUS_fits Hm)
    as (cl & Hcl & _).
  unfold compute_reward_locals. rewrite H3, H47. cbn [bind].
  match goal with
  | |- context [bind (tolerance ?x (?lo, ?hi) ?m "long_tail") _] =>
      destruct (tolerance_range x lo hi m) as (ip & Eip & Rip);
      [unfold TARGET_RADIUS; lra | apply sqrt_pos |];
      rewrite Eip; cbn [bind]
  end.
  rewrite (gripper_caging_reward_run _ _ _ _ _ Hcl). cbn [bind].
  eexists. exists cl. split; [reflexivity |].
  cbn. repeat split; first [assumption | reflexivity].
Qed.

Lemma compute_reward_run self action obs l :
  compute_reward_locals self action obs = Ok l ->
  compute_reward self action obs
  = Ok (reward l, tcp_to_obj l, tcp_opened l, ret_target_to_obj l,
        object_grasped l, in_place l).
Proof. intros H. unfold compute_reward. rewrite H. reflexivity. Qed.

(** On a full observation the only call that can fail is the one to the
    caging reward, and its exception is handed on. *)
Lemma compute_reward_caging_raises self action obs e :
  (7 <= List.length obs)%nat ->
  _gripper_caging_reward self action
    (V3 (nth 4 obs 0) (nth 5 obs 0) (nth 6 obs 0)) OBJ_RADIUS = Raise e ->
  compute_reward self action obs = Raise e.
Proof.
  intros Hobs He.
  destruct (obs_layout obs Hobs) as [H3 H47].
  unfold compute_reward, compute_reward_locals.
  rewrite H3, H47. cbn [bind].
  match goal with
  | |- context [bind (tolerance ?x (?lo, ?hi) ?m "long_tail") _] =>
      destruct (tolerance_range x lo hi m) as (ip & Eip & Rip);
      [unfold TARGET_RADIUS; lra | apply sqrt_pos |];
      rewrite Eip; cbn [bind]
  end.
  rewrite He. reflexivity.
Qed.

(** An observation that is too short fails before anything else. *)
Lemma compute_reward_short_raises self action obs :
  (List.length obs < 7)%nat ->
  compute_reward self action obs
  = Raise (match List.length obs with
           | 4%nat | 6%nat => ValueError
           | _ => IndexError
           end).
Proof.
  intros Hlen.
  do 7 (destruct obs as [| ? obs]; [reflexivity |]).
  simpl in Hlen. lia.
Qed.

(** A run returns only on a full observation, an action that is not
    empty and a margin for the x/z alignment that is not negative. *)
Lemma compute_reward_returns self action obs v :
  compute_reward self action obs = Ok v ->
  (7 <= List.length obs)%nat /\ action <> [] /\ 0 <= x_z_margin self.
Proof.
  intros Hv.
  destruct (Nat.lt_ge_cases (List.length obs) 7) as [Hlen | Hlen].
  { rewrite compute_reward_short_raises in Hv by exact Hlen. discriminate. }
  split; [exact Hlen |].
  destruct (_gripper_caging_reward_locals self action
              (V3 (nth 4 obs 0) (nth 5 obs 0) (nth 6 obs 0)) OBJ_RADIUS)
    as [cl | e] eqn:Hcl.
  - destruct (caging_locals_returns _ _ _ _ _ Hcl) as (Ha & _ & Hm).
    split; assumption.
  - rewrite (compute_reward_caging_raises self action obs e Hlen
               (gripper_caging_reward_raises _ _ _ _ _ Hcl)) in Hv.
    discriminate.
Qed.

(** The two scores that make up the shaped reward are in the unit
    interval, so the shaped reward is at most 9.5. *)
Lemma compute_reward_scores_range self action obs l :
  (7 <= List.length obs)%nat -> action <> [] -> 0 <= x_z_margin self ->
  compute_reward_locals self action obs = Ok l ->
  0 <= object_grasped l <= 1 /\ 0 <= in_place0 l <= 1 /\
  0 <= in_place l <= 1 /\ reward0 l <= 9.5.
Proof.
  intros Hobs Hact Hm Hl.
  destruct (compute_reward_locals_run self action obs Hobs Hact Hm)
    as (l' & cl & Hl' & Hcl & _ & _ & _ & _ & _ & Hip0 & _ & Hip & Hog
        & Hr0 & _).
  rewrite Hl in Hl'. injection Hl' as <-.
  assert (G : 0 <= object_grasped l <= 1).
  { rewrite Hog. apply (caging_locals_range _ _ _ _ _ Hcl). }
  assert (P0 : 0 <= in_place0 l <= 1)
    by apply (tolerance_ok _ _ _ _ _ Hip0).
  assert (P : 0 <= in_place l <= 1).
  { rewrite Hip.
    destruct ((i1 (obj l) >? goal_line l)
              && (Rabs (i0 (obj l) - i0 (_target_pos self)) >? 0.10));
      [| exact P0].
    destruct (float_div _ _); [apply clip_range | lra]. }
  repeat split; try tauto. rewrite Hr0. lra.
Qed.

End Composer.

(** The environment as constructed has a margin of 165 mm. *)
Lemma example_margin : 0 <= x_z_margin Examples.env.
Proof.
  unfold x_z_margin, norm3, sub3, add3. cbn.
  match goal with
  | |- 0 <= sqrt ?e - 0.005 =>
      assert (H : 0.005 <= sqrt e) by (apply sqrt_ge_of_square; lra); lra
  end.
Qed.

(** ** The reward composer *)

Lemma float_div_some (x y : R) : y <> 0 -> float_div x y = Some (x / y).
Proof.
  intros Hy. unfold float_div.
  destruct (y =? 0) eqn:E; [| reflexivity].
  apply Reqb_true in E. contradiction.
Qed.

Lemma float_div_none (x : R) : float_div x 0 = None.
Proof.
  unfold float_div.
  replace (0 =? 0) with true by (symmetry; apply Reqb_true; reflexivity).
  reflexivity.
Qed.

Section ComposerClaims.

Context {U : reward_utils.Tolerance}.
Import reward_utils.

(** C1, amended.  On an observation of at least seven entries, a non-empty
    action and a state whose margin for the x/z alignment is not negative,
    [compute_reward] returns.  Its reward is
    [3 * object_grasped + 6.5 * in_place], except that it is exactly 10
    whenever the weighted distance between the object [obs[4:7]] and the
    target, with the first axis tripled, is strictly less than
    [TARGET_RADIUS]; [object_grasped] is the caging reward.  The distance
    in the fourth component of the result is the unweighted one. *)
Theorem compute_reward_override self action obs :
  (7 <= List.length obs)%nat -> action <> [] -> 0 <= x_z_margin self ->
  exists l,
    compute_reward self action obs
    = Ok (reward l, tcp_to_obj l, tcp_opened l, ret_target_to_obj l,
          object_grasped l, in_place l) /\
    obj l = V3 (nth 4 obs 0) (nth 5 obs 0) (nth 6 obs 0) /\
    _gripper_caging_reward self action (obj l) OBJ_RADIUS
    = Ok (object_grasped l) /\
    ret_target_to_obj l = euclidean_distance (obj l) (_target_pos self) /\
    (weighted_distance (obj l) (_target_pos self) < TARGET_RADIUS ->
     reward l = 10) /\
    (~ weighted_distance (obj l) (_target_pos self) < TARGET_RADIUS ->
     reward l = 3 * object_grasped l + 6.5 * in_place l).
Proof.
  intros Hobs Hact Hm.
  destruct (compute_reward_locals_run self action obs Hobs Hact Hm)
    as (l & cl & Hl & Hcl & Hobj & _ & _ & Htt & _ & _ & _ & _ & Hog
        & Hr0 & Hr & Hret).
  exists l. split; [apply compute_reward_run, Hl |].
  split; [exact Hobj |].
  split; [rewrite Hog; apply gripper_caging_reward_run, Hcl |].
  split; [rewrite Hret; reflexivity |].
  change (weighted_distance (obj l) (_target_pos self))
    with (norm3 (mul3 (sub3 (obj l) (_target_pos self)) (V3 3.0 1.0 1.0))).
  rewrite <- Htt. split; intros H.
  - apply Rltb_true in H. rewrite Hr, H. lra.
  - apply Rltb_false in H. rewrite Hr, H. exact Hr0.
Qed.

(** C4.  In [compute_reward], [in_place] is first computed as the
    tolerance of the object-to-target distance under the norm that
    weights the first axis by 3 and the other two by 1, with bounds
    [(0, TARGET_RADIUS)], with the object-to-initial-position distance
    under the same norm as margin, and with the long-tail shape; the
    distance from the end effector to the object is the unweighted
    Euclidean one.  This is so on every run that returns: an observation
    of at least seven entries, a non-empty action and a margin for the
    x/z alignment that is not negative. *)
Theorem compute_reward_in_place_tolerance self action obs :
  (7 <= List.length obs)%nat -> action <> [] -> 0 <= x_z_margin self ->
  exists l,
    compute_reward_locals self action obs = Ok l /\
    obj l = V3 (nth 4 obs 0) (nth 5 obs 0) (nth 6 obs 0) /\
    tolerance (weighted_distance (obj l) (_target_pos self))
      (0, TARGET_RADIUS)
      (weighted_distance (obj l) (obj_init_pos self)) "long_tail"
    = Ok (in_place0 l) /\
    TARGET_RADIUS = 0.07 /\
    tcp_to_obj l = euclidean_distance (obj l) (tcp_center (super self)).
Proof.
  intros Hobs Hact Hm.
  destruct (compute_reward_locals_run self action obs Hobs Hact Hm)
    as (l & cl & Hl & _ & Hobj & _ & Htcp & Htt & Hti & Hip0 & _).
  exists l. split; [exact Hl |]. split; [exact Hobj |].
  split; [rewrite <- Hip0, Htt, Hti; reflexivity |].
  split; [reflexivity |].
  rewrite Htcp. reflexivity.
Qed.

(** C5.  In [compute_reward], with [goal_line] the target's second
    coordinate minus 0.1: when the object's second coordinate exceeds
    [goal_line] and the absolute first-axis offset of the object from the
    target exceeds 0.10, [in_place] becomes itself minus a penalty that
    is linear in the object's second coordinate minus [goal_line], the
    result clamped to the unit interval; in every other state [in_place]
    stays as the tolerance function gave it.  The slope of the penalty is
    [2 / (1 - goal_line)]; with the goal line at 1 the penalty is
    infinite and the clamp gives 0. *)
Theorem compute_reward_goal_line self action obs :
  (7 <= List.length obs)%nat -> action <> [] -> 0 <= x_z_margin self ->
  exists l,
    compute_reward_locals self action obs = Ok l /\
    obj l = V3 (nth 4 obs 0) (nth 5 obs 0) (nth 6 obs 0) /\
    goal_line l = i1 (_target_pos self) - 0.1 /\
    (i1 (obj l) > goal_line l /\
     Rabs (i0 (obj l) - i0 (_target_pos self)) > 0.10 ->
     (goal_line l <> 1 ->
      in_place l
      = Rmin (Rmax (in_place0 l
                    - 2 / (1 - goal_line l) * (i1 (obj l) - goal_line l))
                   0) 1) /\
     (goal_line l = 1 -> in_place l = 0) /\
     0 <= in_place l <= 1) /\
    (~ (i1 (obj l) > goal_line l /\
        Rabs (i0 (obj l) - i0 (_target_pos self)) > 0.10) ->
     in_place l = in_place0 l).
Proof.
  intros Hobs Hact Hm.
  destruct (compute_reward_locals_run self action obs Hobs Hact Hm)
    as (l & cl & Hl & _ & Hobj & _ & _ & _ & _ & _ & Hgl & Hip & _).
  destruct (compute_reward_scores_range self action obs l Hobs Hact Hm Hl)
    as (_ & _ & Hrange & _).
  exists l. split; [exact Hl |]. split; [exact Hobj |].
  split; [exact Hgl |]. split.
  - intros [H1 H2]. apply Rgtb_true in H1, H2.
    rewrite H1, H2 in Hip. cbn [andb] in Hip.
    split; [| split; [| exact Hrange]].
    + intros Hne.
      rewrite float_div_some in Hip by lra.
      rewrite Hip. unfold clip.
      replace 0.0 with 0 by lra. replace 1.0 with 1 by lra.
      do 2 f_equal. unfold Rdiv. ring.
    + intros He.
      replace (1 - goal_line l) with 0 in Hip by lra.
      rewrite float_div_none in Hip. rewrite Hip. lra.
  - intros H. rewrite Hip.
    destruct (i1 (obj l) >? goal_line l) eqn:E1; trivial.
    destruct (Rabs (i0 (obj l) - i0 (_target_pos self)) >? 0.10) eqn:E2;
      trivial.
    exfalso. apply H. split; apply Rgtb_true; assumption.
Qed.

End ComposerClaims.

(** C1 as stated fails: with the object 3 cm to the side of the target along
    the first axis, the distance returned by [compute_reward] is 0.03,
    below [TARGET_RADIUS], and the reward is not 10. *)
Lemma compute_reward_override_counterexample :
  match compute_reward (U := long_tail) Examples.env Examples.action
          Examples.obs_beside_target with
  | Ok (reward, _, _, target_to_obj, _, _) =>
      target_to_obj
      = euclidean_distance (V3 0.03 0.85 0) (_target_pos Examples.env) /\
      target_to_obj < TARGET_RADIUS /\
      reward <> 10
  | Raise _ => False
  end.
Proof.
  assert (Hobs : (7 <= List.length Examples.obs_beside_target)%nat)
    by (simpl; lia).
  assert (Hact : Examples.action <> []) by discriminate.
  destruct (compute_reward_locals_run (U := long_tail) Examples.env
              Examples.action Examples.obs_beside_target Hobs Hact
              example_margin)
    as (l & cl & Hl & _ & Hobj & _ & _ & Htt & _ & _ & _ & _ & _ & _ & Hr
        & Hret).
  destruct (compute_reward_scores_range (U := long_tail) _ _ _ _ Hobs Hact
              example_margin Hl)
    as (_ & _ & _ & Hle).
  rewrite (compute_reward_run _ _ _ _ Hl).
  rewrite Hobj in Htt, Hret.
  cbv [Examples.obs_beside_target nth] in Htt, Hret.
  split; [exact Hret | split].
  - rewrite Hret.
    cbv [Examples.env __init__ Examples.blank _target_pos norm3 sub3
         i0 i1 i2 TARGET_RADIUS].
    apply sqrt_lt_of_square; lra.
  - assert (Hfar : ~ target_to_obj l < TARGET_RADIUS).
    { rewrite Htt.
      cbv [Examples.env __init__ Examples.blank _target_pos norm3 sub3 mul3
           i0 i1 i2 TARGET_RADIUS].
      apply Rle_not_lt, sqrt_ge_of_square; lra. }
    apply Rltb_false in Hfar. rewrite Hfar in Hr. lra.
Qed.

(** The amended C1 on a concrete run: the object lifted at its start. *)
Lemma compute_reward_override_witness :
  ((7 <= List.length Examples.obs_lifted)%nat /\ Examples.action <> [] /\
   0 <= x_z_margin Examples.env) /\
  exists l,
    compute_reward (U := long_tail) Examples.env Examples.action
      Examples.obs_lifted
    = Ok (reward l, tcp_to_obj l, tcp_opened l, ret_target_to_obj l,
          object_grasped l, in_place l) /\
    obj l = V3 0 0.6 0.08 /\
    _gripper_caging_reward (U := long_tail) Examples.env Examples.action
      (obj l) OBJ_RADIUS
    = Ok (object_grasped l) /\
    ret_target_to_obj l
    = euclidean_distance (obj l) (_target_pos Examples.env) /\
    (weighted_distance (obj l) (_target_pos Examples.env) < TARGET_RADIUS ->
     reward l = 10) /\
    (~ weighted_distance (obj l) (_target_pos Examples.env) < TARGET_RADIUS ->
     reward l = 3 * object_grasped l + 6.5 * in_place l).
Proof.
  split; [split; [simpl; lia | split; [discriminate | exact example_margin]]
         |].
  apply (compute_reward_override (U := long_tail) Examples.env Examples.action
           Examples.obs_lifted);
    [simpl; lia | discriminate | exact example_margin].
Defined.

(** C4 on a concrete run. *)
Lemma compute_reward_in_place_tolerance_witness :
  ((7 <= List.length Examples.obs_lifted)%nat /\ Examples.action <> [] /\
   0 <= x_z_margin Examples.env) /\
  exists l,
    compute_reward_locals (U := long_tail) Examples.env Examples.action
      Examples.obs_lifted = Ok l /\
    obj l = V3 0 0.6 0.08 /\
    reward_utils.long_tail_tolerance
      (weighted_distance (obj l) (_target_pos Examples.env))
      (0, TARGET_RADIUS)
      (weighted_distance (obj l) (obj_init_pos Examples.env)) "long_tail"
    = Ok (in_place0 l) /\
    TARGET_RADIUS = 0.07 /\
    tcp_to_obj l
    = euclidean_distance (obj l) (tcp_center (super Examples.env)).
Proof.
  split; [split; [simpl; lia | split; [discriminate | exact example_margin]]
         |].
  apply (compute_reward_in_place_tolerance (U := long_tail) Examples.env
           Examples.action Examples.obs_lifted);
    [simpl; lia | discriminate | exact example_margin].
Defined.

(** C5 on a concrete run. *)
Lemma compute_reward_goal_line_witness :
  ((7 <= List.length MoreExamples.obs_past_goal_line)%nat /\
   Examples.action <> [] /\ 0 <= x_z_margin Examples.env) /\
  exists l,
    compute_reward_locals (U := long_tail) Examples.env Examples.action
      MoreExamples.obs_past_goal_line = Ok l /\
    obj l = V3 0.2 0.8 0 /\
    goal_line l = i1 (_target_pos Examples.env) - 0.1 /\
    (i1 (obj l) > goal_line l /\
     Rabs (i0 (obj l) - i0 (_target_pos Examples.env)) > 0.10 ->
     (goal_line l <> 1 ->
      in_place l
      = Rmin (Rmax (in_place0 l
                    - 2 / (1 - goal_line l) * (i1 (obj l) - goal_line l))
                   0) 1) /\
     (goal_line l = 1 -> in_place l = 0) /\
     0 <= in_place l <= 1) /\
    (~ (i1 (obj l) > goal_line l /\
        Rabs (i0 (obj l) - i0 (_target_pos Examples.env)) > 0.10) ->
     in_place l = in_place0 l).
Proof.
  split; [split; [simpl; lia | split; [discriminate | exact example_margin]]
         |].
  apply (compute_reward_goal_line (U := long_tail) Examples.env
           Examples.action MoreExamples.obs_past_goal_line);
    [simpl; lia | discriminate | exact example_margin].
Defined.

(** ** The caging reward *)

Section CagingClaims.

Context {U : reward_utils.Tolerance}.
Import reward_utils.

(** Two non-empty actions give the same result of the caging reward,
    be it a value or an exception. *)
Lemma caging_reward_same_for_actions
    self action1 action2 obj_position obj_radius :
  action1 <> [] -> action2 <> [] ->
  _gripper_caging_reward self action1 obj_position obj_radius
  = _gripper_caging_reward self action2 obj_position obj_radius.
Proof.
  intros H1 H2.
  destruct (Rle_dec obj_radius 0.05) as [Hr | Hr];
    [destruct (Rle_dec 0 (x_z_margin self)) as [Hm | Hm] |].
  - destruct (caging_locals_run self action1 obj_position obj_radius
                H1 Hr Hm)
      as (l1 & Hl1 & Hrc1 & Hlc1 & Hrg1 & Hlg1 & Hyc1 & Hyg1 & Hxz1 & _
          & Hc1 & Hg1 & Hcg1).
    destruct (caging_locals_run self action2 obj_position obj_radius
                H2 Hr Hm)
      as (l2 & Hl2 & Hrc2 & Hlc2 & Hrg2 & Hlg2 & Hyc2 & Hyg2 & Hxz2 & _
          & Hc2 & Hg2 & Hcg2).
    rewrite (gripper_caging_reward_run _ _ _ _ _ Hl1),
      (gripper_caging_reward_run _ _ _ _ _ Hl2). f_equal.
    assert (Erc : right_caging l2 = right_caging l1) by congruence.
    assert (Elc : left_caging l2 = left_caging l1) by congruence.
    assert (Erg : right_gripping l2 = right_gripping l1) by congruence.
    assert (Elg : left_gripping l2 = left_gripping l1) by congruence.
    assert (Exz : x_z_caging l2 = x_z_caging l1) by congruence.
    assert (Eyc : y_caging l2 = y_caging l1) by congruence.
    assert (Eyg : y_gripping l2 = y_gripping l1) by congruence.
    assert (Ec : caging l2 = caging l1) by congruence.
    assert (Eg : gripping l2 = gripping l1)
      by (rewrite Hg1, Hg2, Ec, Eyg; reflexivity).
    congruence.
  - rewrite !(gripper_caging_reward_raises _ _ _ _ ValueError)
      by (apply caging_locals_negative_margin; lra).
    reflexivity.
  - rewrite !(gripper_caging_reward_raises _ _ _ _ ValueError)
      by (apply caging_locals_wide_radius; lra).
    reflexivity.
Qed.

(** C3.  The caging reward returns [(caging + gripping) / 2], where
    [gripping] is [y_gripping], the Hamacher product of the two per-side
    gripping tolerances, when [caging > 0.95], and is 0 otherwise;
    [caging] is the Hamacher product of [y_caging], itself the product of
    the two per-side caging tolerances, and of the x/z alignment score.
    This is so on every input on which the function returns: a non-empty
    action, a radius within the pad margin and a margin for the x/z
    alignment that is not negative. *)
Theorem gripper_caging_reward_value self action obj_position obj_radius :
  action <> [] -> obj_radius <= 0.05 -> 0 <= x_z_margin self ->
  exists l,
    _gripper_caging_reward_locals self action obj_position obj_radius
    = Ok l /\
    _gripper_caging_reward self action obj_position obj_radius
    = Ok ((caging l + gripping l) / 2) /\
    tolerance (i1 obj_position - i1 (get_body_com (super self) "rightpad"))
      (obj_radius, 0.05)
      (Rabs (Rabs (i1 obj_position - i1 (init_right_pad (super self)))
             - 0.05)) "long_tail"
    = Ok (right_caging l) /\
    tolerance (i1 (get_body_com (super self) "leftpad") - i1 obj_position)
      (obj_radius, 0.05)
      (Rabs (Rabs (i1 obj_position - i1 (init_left_pad (super self)))
             - 0.05)) "long_tail"
    = Ok (left_caging l) /\
    tolerance (i1 obj_position - i1 (get_body_com (super self) "rightpad"))
      (obj_radius, obj_radius + 0.01)
      (Rabs (Rabs (i1 obj_position - i1 (init_right_pad (super self)))
             - 0.05)) "long_tail"
    = Ok (right_gripping l) /\
    tolerance (i1 (get_body_com (super self) "leftpad") - i1 obj_position)
      (obj_radius, obj_radius + 0.01)
      (Rabs (Rabs (i1 obj_position - i1 (init_left_pad (super self)))
             - 0.05)) "long_tail"
    = Ok (left_gripping l) /\
    tolerance
      (norm3 (sub3 (add3 (tcp_center (super self))
                         (V3 0.0 (- i1 (tcp_center (super self))) 0.0))
                   (add3 obj_position (V3 0.0 (- i1 obj_position) 0.0))))
      (0, 0.005) (x_z_margin self) "long_tail"
    = Ok (x_z_caging l) /\
    y_caging l = hamacher_product (right_caging l) (left_caging l) /\
    caging l = hamacher_product (y_caging l) (x_z_caging l) /\
    y_gripping l = hamacher_product (right_gripping l) (left_gripping l) /\
    (caging l > 0.95 -> gripping l = y_gripping l) /\
    (~ caging l > 0.95 -> gripping l = 0).
Proof.
  intros Ha Hr Hm.
  destruct (caging_locals_run self action obj_position obj_radius Ha Hr Hm)
    as (l & Hl & Hrc & Hlc & Hrg & Hlg & Hyc & Hyg & Hxz & _ & Hc & Hg
        & Hcg).
  exists l. split; [exact Hl |].
  split; [rewrite <- Hcg; apply gripper_caging_reward_run, Hl |].
  split; [exact Hrc |]. split; [exact Hlc |]. split; [exact Hrg |].
  split; [exact Hlg |]. split; [exact Hxz |]. split; [exact Hyc |].
  split; [exact Hc |]. split; [exact Hyg |].
  split; intros H.
  - apply Rgtb_true in H. rewrite Hg, H. reflexivity.
  - apply Rgtb_false in H. rewrite Hg, H. lra.
Qed.

(** C7.  No in-range assertion of the caging reward fails, whatever the
    inputs.  Whenever the computation returns, the per-side caging and
    gripping tolerances, [y_caging], [y_gripping], the x/z alignment
    score, [caging], [gripping], the clamped gripper command and the
    returned value all lie in the unit interval.  It returns exactly on a
    non-empty action, a radius within the pad margin and a margin for the
    x/z alignment that is not negative. *)
Theorem gripper_caging_reward_in_range
    self action obj_position obj_radius :
  _gripper_caging_reward_locals self action obj_position obj_radius
  <> Raise AssertionError /\
  _gripper_caging_reward self action obj_position obj_radius
  <> Raise AssertionError /\
  (forall l,
      _gripper_caging_reward_locals self action obj_position obj_radius
      = Ok l ->
      _gripper_caging_reward self action obj_position obj_radius
      = Ok (caging_and_gripping l) /\
      (0 <= right_caging l <= 1) /\ (0 <= left_caging l <= 1) /\
      (0 <= right_gripping l <= 1) /\ (0 <= left_gripping l <= 1) /\
      (0 <= y_caging l <= 1) /\ (0 <= y_gripping l <= 1) /\
      (0 <= x_z_caging l <= 1) /\ (0 <= gripper_closed l <= 1) /\
      (0 <= caging l <= 1) /\ (0 <= gripping l <= 1) /\
      (0 <= caging_and_gripping l <= 1)) /\
  ((exists l,
       _gripper_caging_reward_locals self action obj_position obj_radius
       = Ok l) <->
   action <> [] /\ obj_radius <= 0.05 /\ 0 <= x_z_margin self).
Proof.
  pose proof (caging_locals_no_assertion self action obj_position
                obj_radius) as Hno.
  split; [exact Hno |]. split; [| split; [| split]].
  - unfold _gripper_caging_reward.
    destruct (_gripper_caging_reward_locals self action obj_position
                obj_radius) as [l | e]; simpl; congruence.
  - intros l Hl. split; [apply gripper_caging_reward_run, Hl |].
    apply (caging_locals_range self action obj_position obj_radius l Hl).
  - intros [l Hl]. apply (caging_locals_returns _ _ _ _ _ Hl).
  - intros (Ha & Hr & Hm).
    destruct (caging_locals_run self action obj_position obj_radius
                Ha Hr Hm) as (l & Hl & _).
    exists l. exact Hl.
Qed.

(** C10.  The caging reward does not depend on the action: two non-empty
    action vectors, with the same object position, object radius and
    environment state, give the same result, and where the function
    returns, the same returned value. *)
Theorem gripper_caging_reward_ignores_action
    self action1 action2 obj_position obj_radius :
  action1 <> [] -> action2 <> [] ->
  _gripper_caging_reward self action1 obj_position obj_radius
  = _gripper_caging_reward self action2 obj_position obj_radius /\
  (obj_radius <= 0.05 -> 0 <= x_z_margin self ->
   exists v,
     _gripper_caging_reward self action1 obj_position obj_radius = Ok v /\
     _gripper_caging_reward self action2 obj_position obj_radius = Ok v).
Proof.
  intros H1 H2.
  pose proof (caging_reward_same_for_actions self action1 action2
                obj_position obj_radius H1 H2) as E.
  split; [exact E |].
  intros Hr Hm.
  destruct (caging_locals_run self action1 obj_position obj_radius H1 Hr Hm)
    as (l & Hl & _).
  exists (caging_and_gripping l).
  split; [| rewrite <- E]; apply gripper_caging_reward_run, Hl.
Qed.

End CagingClaims.

(** C3 on a concrete run. *)
Lemma gripper_caging_reward_value_witness :
  (Examples.action <> [] /\ OBJ_RADIUS <= 0.05 /\
   0 <= x_z_margin Examples.env) /\
  exists l,
    _gripper_caging_reward_locals (U := long_tail) Examples.env
      Examples.action (V3 0 0.6 0.03) OBJ_RADIUS = Ok l /\
    _gripper_caging_reward (U := long_tail) Examples.env Examples.action
      (V3 0 0.6 0.03) OBJ_RADIUS
    = Ok ((caging l + gripping l) / 2) /\
    y_caging l
    = reward_utils.hamacher_product (right_caging l) (left_caging l) /\
    caging l = reward_utils.hamacher_product (y_caging l) (x_z_caging l) /\
    y_gripping l
    = reward_utils.hamacher_product (right_gripping l) (left_gripping l) /\
    (caging l > 0.95 -> gripping l = y_gripping l) /\
    (~ caging l > 0.95 -> gripping l = 0).
Proof.
  split; [split; [discriminate
                 | split; [exact OBJ_RADIUS_fits | exact example_margin]] |].
  destruct (gripper_caging_reward_value (U := long_tail) Examples.env
              Examples.action (V3 0 0.6 0.03) OBJ_RADIUS)
    as (l & Hl & Hv & _ & _ & _ & _ & _ & Hyc & Hc & Hyg & Hg1 & Hg2);
    [discriminate | exact OBJ_RADIUS_fits | exact example_margin |].
  exists l. repeat split; assumption.
Defined.

(** C7 on a concrete run. *)
Lemma gripper_caging_reward_in_range_witness :
  (Examples.action <> [] /\ OBJ_RADIUS <= 0.05 /\
   0 <= x_z_margin Examples.env) /\
  exists l,
    _gripper_caging_reward_locals (U := long_tail) Examples.env
      Examples.action (V3 0 0.6 0.03) OBJ_RADIUS = Ok l /\
    _gripper_caging_reward (U := long_tail) Examples.env Examples.action
      (V3 0 0.6 0.03) OBJ_RADIUS
    = Ok (caging_and_gripping l) /\
    (0 <= right_caging l <= 1) /\ (0 <= left_caging l <= 1) /\
    (0 <= right_gripping l <= 1) /\ (0 <= left_gripping l <= 1) /\
    (0 <= y_caging l <= 1) /\ (0 <= y_gripping l <= 1) /\
    (0 <= x_z_caging l <= 1) /\ (0 <= gripper_closed l <= 1) /\
    (0 <= caging l <= 1) /\ (0 <= gripping l <= 1) /\
    (0 <= caging_and_gripping l <= 1).
Proof.
  assert (Hvalid : Examples.action <> [] /\ OBJ_RADIUS <= 0.05 /\
                   0 <= x_z_margin Examples.env)
    by (split; [discriminate
               | split; [exact OBJ_RADIUS_fits | exact example_margin]]).
  split; [exact Hvalid |].
  destruct (gripper_caging_reward_in_range (U := long_tail) Examples.env
              Examples.action (V3 0 0.6 0.03) OBJ_RADIUS)
    as (_ & _ & Hrange & Hiff).
  destruct (proj2 Hiff Hvalid) as [l Hl].
  exists l. split; [exact Hl |]. exact (Hrange l Hl).
Defined.

(** C10 on two concrete actions. *)
Lemma gripper_caging_reward_ignores_action_witness :
  (Examples.action <> [] /\ [1] <> []) /\
  _gripper_caging_reward (U := long_tail) Examples.env Examples.action
    (V3 0 0.6 0.03) OBJ_RADIUS
  = _gripper_caging_reward (U := long_tail) Examples.env [1]
      (V3 0 0.6 0.03) OBJ_RADIUS /\
  exists v,
    _gripper_caging_reward (U := long_tail) Examples.env Examples.action
      (V3 0 0.6 0.03) OBJ_RADIUS = Ok v /\
    _gripper_caging_reward (U := long_tail) Examples.env [1]
      (V3 0 0.6 0.03) OBJ_RADIUS = Ok v.
Proof.
  split; [split; discriminate |].
  destruct (gripper_caging_reward_ignores_action (U := long_tail)
              Examples.env Examples.action [1] (V3 0 0.6 0.03) OBJ_RADIUS)
    as [E Hok]; [discriminate | discriminate |].
  split; [exact E |].
  exact (Hok OBJ_RADIUS_fits example_margin).
Defined.

(** ** The fuzzy combinator *)

(** C8.  On the unit square the Hamacher product stays in the unit
      interval; it is 0 as soon as one argument is 0, the case of two zero
      arguments included; it is 1 at (1, 1); it is symmetric; and it is
      non-decreasing in each argument. *)
Theorem hamacher_product_properties (a a' b : R) :
  0 <= a <= a' -> a' <= 1 -> 0 <= b <= 1 ->
  0 <= reward_utils.hamacher_product a b <= 1 /\
  reward_utils.hamacher_product a 0 = 0 /\
  reward_utils.hamacher_product 0 b = 0 /\
  reward_utils.hamacher_product 0 0 = 0 /\
  reward_utils.hamacher_product 1 1 = 1 /\
  reward_utils.hamacher_product a b = reward_utils.hamacher_product b a /\
  reward_utils.hamacher_product a b <= reward_utils.hamacher_product a' b /\
  reward_utils.hamacher_product b a <= reward_utils.hamacher_product b a'.
Proof.
  intros Ha Ha' Hb.
  split; [apply hamacher_range; lra |].
  split; [apply hamacher_zero_r; lra |].
  split; [apply hamacher_zero_l; lra |].
  split; [apply hamacher_zero_zero |].
  split; [apply hamacher_one_one |].
  split; [apply hamacher_comm |].
  split; [apply hamacher_mono_l | apply hamacher_mono_r]; lra.
Qed.

(** C8 at [a = 1/2], [a' = 1], [b = 1/4]. *)
Lemma hamacher_product_properties_witness :
  (0 <= 1 / 2 <= 1 /\ 1 <= 1 /\ 0 <= 1 / 4 <= 1) /\
  0 <= reward_utils.hamacher_product (1 / 2) (1 / 4) <= 1 /\
  reward_utils.hamacher_product (1 / 2) 0 = 0 /\
  reward_utils.hamacher_product 0 (1 / 4) = 0 /\
  reward_utils.hamacher_product 0 0 = 0 /\
  reward_utils.hamacher_product 1 1 = 1 /\
  reward_utils.hamacher_product (1 / 2) (1 / 4)
  = reward_utils.hamacher_product (1 / 4) (1 / 2) /\
  reward_utils.hamacher_product (1 / 2) (1 / 4)
  <= reward_utils.hamacher_product 1 (1 / 4) /\
  reward_utils.hamacher_product (1 / 4) (1 / 2)
  <= reward_utils.hamacher_product (1 / 4) 1.
Proof.
  split; [lra |].
  apply (hamacher_product_properties (1 / 2) 1 (1 / 4)); lra.
Defined.


(** ** The outcome classifier *)

Section Classifier.

Context {U : reward_utils.Tolerance}.

(** What [evaluate_state] returns, in terms of the locals of
    [compute_reward]. *)
Lemma evaluate_state_run self obs action l :
  _set_task_called (super self) = true ->
  (7 <= List.length obs)%nat ->
  compute_reward_locals self action obs = Ok l ->
  evaluate_state self obs action
  = Ok (reward l,
        {| success := float (ret_target_to_obj l <=? 0.07);
           near_object := float (tcp_to_obj l <=? 0.03);
           grasp_success :=
             float (method_truth (touching_object (super self))
                    && (tcp_opened l >? 0)
                    && (nth 6 obs 0 - 0.02 >? i2 (obj_init_pos self)));
           grasp_reward := object_grasped l;
           in_place_reward := in_place l;
           obj_to_target := ret_target_to_obj l;
           unscaled_reward := reward l |}).
Proof.
  intros Htask Hobs Hl.
  destruct (obs_layout obs Hobs) as [_ H47].
  unfold evaluate_state, _assert_task_is_set. rewrite Htask.
  unfold evaluate_state_body.
  rewrite (compute_reward_run _ _ _ _ Hl), H47. reflexivity.
Qed.

(** X20.  The flags as the code computes them.  Once a task is set, on an
    observation of at least seven entries, a non-empty action and a
    margin for the x/z alignment that is not negative, [evaluate_state]
    returns flags that are 0 or 1 with: [success] is 1 exactly when the
    unweighted distance from the object to the target is at most 0.07;
    [near_object] is 1 exactly when the distance from the end effector to
    the object is at most 0.03; [grasp_success] is 1 exactly when the
    gripper opening [obs[3]] is positive and the object is more than 0.02
    above its initial height, whatever [touching_object] would answer. *)
Theorem evaluate_state_flags self obs action :
  _set_task_called (super self) = true ->
  (7 <= List.length obs)%nat -> action <> [] -> 0 <= x_z_margin self ->
  exists reward info,
    evaluate_state self obs action = Ok (reward, info) /\
    (success info = 1 <->
     euclidean_distance (V3 (nth 4 obs 0) (nth 5 obs 0) (nth 6 obs 0))
       (_target_pos self) <= 0.07) /\
    (near_object info = 1 <->
     euclidean_distance (V3 (nth 4 obs 0) (nth 5 obs 0) (nth 6 obs 0))
       (tcp_center (super self)) <= 0.03) /\
    (grasp_success info = 1 <->
     nth 3 obs 0 > 0 /\
     nth 6 obs 0 - i2 (obj_init_pos self) > 0.02) /\
    (success info = 0 \/ success info = 1) /\
    (near_object info = 0 \/ near_object info = 1) /\
    (grasp_success info = 0 \/ grasp_success info = 1).
Proof.
  intros Htask Hobs Hact Hm.
  destruct (compute_reward_locals_run self action obs Hobs Hact Hm)
    as (l & cl & Hl & _ & Hobj & Hopen & Htcp & _ & _ & _ & _ & _ & _ & _
        & _ & Hret).
  eexists. eexists.
  split; [apply (evaluate_state_run self obs action l Htask Hobs Hl) |].
  cbn [success near_object grasp_success].
  rewrite Hret, Htcp, Hopen, Hobj.
  change (norm3 (sub3 ?p ?q)) with (euclidean_distance p q).
  split; [rewrite float_one; apply Rleb_true |].
  split; [rewrite float_one; apply Rleb_true |].
  split; [| repeat split; apply float_bit].
  unfold method_truth. cbn [andb].
  rewrite float_one, andb_true_iff, !Rgtb_true.
  split; intros [Ho Hz]; split; trivial; lra.
Qed.

End Classifier.

(** X20 on a concrete run. *)
Lemma evaluate_state_flags_witness :
  (_set_task_called (super Examples.env) = true /\
   (7 <= List.length Examples.obs_lifted)%nat /\ Examples.action <> [] /\
   0 <= x_z_margin Examples.env) /\
  exists reward info,
    evaluate_state (U := long_tail) Examples.env Examples.obs_lifted
      Examples.action = Ok (reward, info) /\
    (success info = 1 <->
     euclidean_distance (V3 0 0.6 0.08) (_target_pos Examples.env) <= 0.07) /\
    (near_object info = 1 <->
     euclidean_distance (V3 0 0.6 0.08) (tcp_center (super Examples.env))
     <= 0.03) /\
    (grasp_success info = 1 <->
     1 > 0 /\
     0.08 - i2 (obj_init_pos Examples.env) > 0.02) /\
    (success info = 0 \/ success info = 1) /\
    (near_object info = 0 \/ near_object info = 1) /\
    (grasp_success info = 0 \/ grasp_success info = 1).
Proof.
  split; [split; [reflexivity
                 | split; [simpl; lia
                          | split; [discriminate | exact example_margin]]] |].
  apply (evaluate_state_flags (U := long_tail) Examples.env
           Examples.obs_lifted Examples.action);
    [reflexivity | simpl; lia | discriminate | exact example_margin].
Defined.

Lemma no_contact_margin : 0 <= x_z_margin MoreExamples.no_contact_env.
Proof. exact example_margin. Qed.

(** C6, the grasp flag.  With the gripper touching nothing, the gripper
    open and the object lifted 5 cm above its initial height,
    [evaluate_state] reports [grasp_success] as 1: the conjunction reads
    the method [touching_object] itself and never calls it. *)
Lemma evaluate_state_grasp_success_without_contact :
  (forall geom,
      touching_object (super MoreExamples.no_contact_env) geom = false) /\
  nth 3 Examples.obs_lifted 0 > 0 /\
  nth 6 Examples.obs_lifted 0
  - i2 (obj_init_pos MoreExamples.no_contact_env) > 0.02 /\
  exists reward info,
    evaluate_state (U := long_tail) MoreExamples.no_contact_env
      Examples.obs_lifted Examples.action = Ok (reward, info) /\
    grasp_success info = 1.
Proof.
  split; [intros geom; reflexivity |].
  split; [cbn; lra |]. split; [cbn; lra |].
  destruct (compute_reward_locals_run (U := long_tail)
              MoreExamples.no_contact_env Examples.action
              Examples.obs_lifted)
    as (l & cl & Hl & _ & _ & Hopen & _);
    [simpl; lia | discriminate | exact no_contact_margin |].
  eexists. eexists.
  split; [apply (evaluate_state_run (U := long_tail)
                   MoreExamples.no_contact_env Examples.obs_lifted
                   Examples.action l eq_refl);
          [simpl; lia | exact Hl] |].
  cbn [grasp_success]. rewrite Hopen. unfold method_truth. cbn [andb].
  apply float_one, andb_true_intro.
  split; apply Rgtb_true; cbn; lra.
Qed.

(** ** The task sampler *)

Section Sampler.

Variable _reset_hand : SawyerSoccerEnvV2 -> SawyerXYZEnv.
Variable _set_obj_xyz : vec3 -> SawyerSoccerEnvV2 -> SawyerXYZEnv.
Variable _get_obs : SawyerSoccerEnvV2 -> list R.

(** The vectors the loop looks at: the one it starts with, then the
    draws in order. *)
Let candidate (goal_pos : vec6) (self : SawyerSoccerEnvV2) (k : nat) :=
  match k with
  | O => goal_pos
  | S k' => rand_vecs self k'
  end.

(** What the loop hands back: the first candidate that is far enough,
    with the target set from it and the draws before it used up. *)
Lemma reset_model_loop_accepts fuel :
  forall goal_pos self goal_pos' self',
    _target_pos self = from3 goal_pos ->
    reset_model_loop fuel goal_pos self = Some (goal_pos', self') ->
    exists k,
      (k <= fuel)%nat /\
      goal_pos' = candidate goal_pos self k /\
      ~ separation goal_pos' < 0.15 /\
      (forall i, (i < k)%nat ->
                 separation (candidate goal_pos self i) < 0.15) /\
      _target_pos self' = from3 goal_pos' /\
      (forall n, rand_vecs self' n = rand_vecs self (k + n)%nat) /\
      obj_init_pos self' = obj_init_pos self.
Proof.
  induction fuel as [| fuel IH]; intros goal_pos self goal_pos' self' Hinv;
    simpl; rewrite Hinv;
    change (norm2 (sub2 (firsttwo6 goal_pos) (firsttwo3 (from3 goal_pos))))
      with (separation goal_pos);
    destruct (separation goal_pos <? 0.15) eqn:Etest.
  - discriminate.
  - intros [= <- <-]. exists 0%nat. apply Rltb_false in Etest.
    repeat split; trivial; try lia; intros i Hi; lia.
  - intros Hrun. apply Rltb_true in Etest.
    apply IH in Hrun; [| reflexivity].
    destruct Hrun as (k & Hk & Hg & Hfar & Hnear & Ht & Hr & Ho).
    exists (S k). split; [lia |].
    split; [destruct k; exact Hg |].
    split; [exact Hfar |].
    split; [| repeat split; trivial].
    intros [| i] Hi; [exact Etest |].
    specialize (Hnear i ltac:(lia)). destruct i; exact Hnear.
  - intros [= <- <-]. exists 0%nat. apply Rltb_false in Etest.
    repeat split; trivial; try lia; intros i Hi; lia.
Qed.

(** The loop ends as soon as a candidate is far enough. *)
Lemma reset_model_loop_terminates k :
  forall fuel goal_pos self,
    _target_pos self = from3 goal_pos ->
    (k <= fuel)%nat ->
    ~ separation (candidate goal_pos self k) < 0.15 ->
    exists r, reset_model_loop fuel goal_pos self = Some r.
Proof.
  induction k as [| k IH]; intros fuel goal_pos self Hinv Hk Hfar.
  - simpl in Hfar. apply Rltb_false in Hfar.
    destruct fuel; simpl; rewrite Hinv;
      change (norm2 (sub2 (firsttwo6 goal_pos)
                          (firsttwo3 (from3 goal_pos))))
        with (separation goal_pos);
      rewrite Hfar; eexists; reflexivity.
  - destruct fuel as [| fuel]; [lia |].
    simpl. rewrite Hinv.
    change (norm2 (sub2 (firsttwo6 goal_pos) (firsttwo3 (from3 goal_pos))))
      with (separation goal_pos).
    destruct (separation goal_pos <? 0.15); [| eexists; reflexivity].
    apply IH; [reflexivity | lia |].
    destruct k; exact Hfar.
Qed.

(** What [reset_model] leaves behind when it returns: draw number [k] is
    the first that is far enough, and the positions come from it. *)
Lemma reset_model_returns fuel self obs' self' :
  reset_model _reset_hand _set_obj_xyz _get_obs fuel self
  = Some (obs', self') ->
  exists k,
    (k <= fuel)%nat /\
    ~ separation (rand_vecs self k) < 0.15 /\
    (forall i, (i < k)%nat -> separation (rand_vecs self i) < 0.15) /\
    _target_pos self' = from3 (rand_vecs self k) /\
    target_pos self' = from3 (rand_vecs self k) /\
    obj_init_pos self'
    = V3 (j0 (rand_vecs self k)) (j1 (rand_vecs self k))
         (i2 (obj_init_pos self)) /\
    maxPushDist self' = separation (rand_vecs self k) /\
    (forall n, rand_vecs self' n = rand_vecs self (S k + n)%nat).
Proof.
  unfold reset_model. cbn [_get_state_rand_vec].
  match goal with
  | |- context [reset_model_loop fuel ?g ?s] =>
      destruct (reset_model_loop fuel g s) as [[goal_pos self1] |] eqn:Hloop
  end; [| discriminate].
  intros [= <- <-].
  apply reset_model_loop_accepts in Hloop; [| reflexivity].
  destruct Hloop as (k & Hk & Hg & Hfar & Hnear & Ht & Hr & Ho).
  assert (Hcand : forall i,
             candidate (rand_vecs self 0)
               (set__target_pos
                  (set_rand_vecs
                     (set_obj_init_angle
                        (set__target_pos (set_super self (_reset_hand self))
                           (goal (set_super self (_reset_hand self))))
                        (cfg_obj_init_angle
                           (init_config
                              (set__target_pos
                                 (set_super self (_reset_hand self))
                                 (goal (set_super self
                                          (_reset_hand self)))))))
                     (fun n => rand_vecs self (S n)))
                  (from3 (rand_vecs self 0))) i
             = rand_vecs self i)
    by (intros [| i]; reflexivity).
  rewrite Hcand in Hg. subst goal_pos.
  exists k. split; [exact Hk |]. split; [exact Hfar |].
  split; [intros i Hi; rewrite <- Hcand; apply Hnear, Hi |].
  cbn. rewrite Ht, Ho. cbn.
  repeat split; trivial.
Qed.

(** [reset_model] returns once it has fuel to reach a draw that is far
    enough. *)
Lemma reset_model_terminates fuel self k :
  (k <= fuel)%nat ->
  ~ separation (rand_vecs self k) < 0.15 ->
  exists r,
    reset_model _reset_hand _set_obj_xyz _get_obs fuel self = Some r.
Proof.
  intros Hk Hfar. unfold reset_model. cbn [_get_state_rand_vec].
  match goal with
  | |- context [reset_model_loop fuel ?g ?s] =>
      destruct (reset_model_loop_terminates k fuel g s) as [[g' s'] Hloop];
      [reflexivity | exact Hk | destruct k; exact Hfar |]
  end.
  rewrite Hloop. eexists. reflexivity.
Qed.

(** In the configured reset space every draw is the same vector. *)
Lemma configured_draw self n :
  _random_reset_space self = _random_reset_space (__init__ self) ->
  draws_in_space self ->
  j0 (rand_vecs self n) = 0 /\ j1 (rand_vecs self n) = 0.65 /\
  j2 (rand_vecs self n) = 0.03 /\ j3 (rand_vecs self n) = 0 /\
  j4 (rand_vecs self n) = 0.85 /\ j5 (rand_vecs self n) = 0.0.
Proof.
  intros Hbox Hdraws. specialize (Hdraws n). rewrite Hbox in Hdraws.
  unfold in_box in Hdraws. cbn in Hdraws. lra.
Qed.

Lemma configured_separation self n :
  _random_reset_space self = _random_reset_space (__init__ self) ->
  draws_in_space self ->
  separation (rand_vecs self n) = 0.20.
Proof.
  intros Hbox Hdraws.
  destruct (configured_draw self n Hbox Hdraws)
    as (E0 & E1 & _ & E3 & E4 & _).
  unfold separation. rewrite E0, E1, E3, E4.
  apply sqrt_eq_of_square; lra.
Qed.

End Sampler.

Section SamplerClaims.

Variable _reset_hand : SawyerSoccerEnvV2 -> SawyerXYZEnv.
Variable _set_obj_xyz : vec3 -> SawyerSoccerEnvV2 -> SawyerXYZEnv.
Variable _get_obs : SawyerSoccerEnvV2 -> list R.

(** C2.  Whenever [reset_model] returns, the first two coordinates of
    the object's initial position and of the target are at least 0.15
    apart.  With the reset space fixed as the constructor fixes it, the
    object at (0, 0.65) and the goal at (0, 0.85), that distance is
    exactly 0.20 and [reset_model] returns without running the body of
    its loop: one vector is drawn and accepted. *)
Theorem reset_model_separation fuel self :
  (forall obs' self',
      reset_model _reset_hand _set_obj_xyz _get_obs fuel self
      = Some (obs', self') ->
      norm2 (sub2 (firsttwo3 (obj_init_pos self'))
                  (firsttwo3 (_target_pos self'))) >= 0.15) /\
  (_random_reset_space self = _random_reset_space (__init__ self) ->
   draws_in_space self ->
   exists obs' self',
     reset_model _reset_hand _set_obj_xyz _get_obs 0 self
     = Some (obs', self') /\
     firsttwo3 (obj_init_pos self') = (0, 0.65) /\
     firsttwo3 (_target_pos self') = (0, 0.85) /\
     norm2 (sub2 (firsttwo3 (obj_init_pos self'))
                 (firsttwo3 (_target_pos self'))) = 0.20 /\
     (forall n, rand_vecs self' n = rand_vecs self (S n))).
Proof.
  split.
  - intros obs' self' Hrun.
    apply reset_model_returns in Hrun.
    destruct Hrun as (k & _ & Hfar & _ & Ht & _ & Ho & _).
    rewrite Ht, Ho.
    change (separation (rand_vecs self k) >= 0.15). lra.
  - intros Hbox Hdraws.
    pose proof (configured_separation self 0 Hbox Hdraws) as Hsep.
    destruct (reset_model_terminates _reset_hand _set_obj_xyz _get_obs
                0 self 0) as [[obs' self'] Hrun]; [lia | lra |].
    exists obs', self'. split; [exact Hrun |].
    apply reset_model_returns in Hrun.
    destruct Hrun as (k & Hk & _ & _ & Ht & _ & Ho & _ & Hr).
    assert (k = 0)%nat by lia. subst k.
    destruct (configured_draw self 0 Hbox Hdraws)
      as (E0 & E1 & _ & E3 & E4 & _).
    rewrite Ht, Ho.
    split; [cbv [firsttwo3 i0 i1]; rewrite E0, E1; reflexivity |].
    split; [cbv [firsttwo3 from3 i0 i1]; rewrite E3, E4; reflexivity |].
    split; [exact Hsep | exact Hr].
Qed.


End SamplerClaims.

Lemma example_draws_in_space : draws_in_space Examples.env.
Proof. intros n. unfold in_box. cbn. lra. Qed.


(** C2 on the environment as constructed. *)
Lemma reset_model_separation_witness :
  exists obs' self',
    reset_model Examples.reset_hand_id Examples.set_obj_xyz_id
      Examples.get_obs_zero 0 Examples.env = Some (obs', self') /\
    norm2 (sub2 (firsttwo3 (obj_init_pos self'))
                (firsttwo3 (_target_pos self'))) >= 0.15 /\
    norm2 (sub2 (firsttwo3 (obj_init_pos self'))
                (firsttwo3 (_target_pos self'))) = 0.20.
Proof.
  destruct (proj2 (reset_model_separation Examples.reset_hand_id
                     Examples.set_obj_xyz_id Examples.get_obs_zero 0
                     Examples.env) eq_refl example_draws_in_space)
    as (obs' & self' & Hrun & _ & _ & Hsep & _).
  exists obs', self'. split; [exact Hrun |].
  split; [| exact Hsep].
  exact (proj1 (reset_model_separation Examples.reset_hand_id
                  Examples.set_obj_xyz_id Examples.get_obs_zero 0
                  Examples.env) obs' self' Hrun).
Defined.




(** ** Runs on concrete inputs *)

Lemma far_goal_margin : 0 <= x_z_margin MoreExamples.far_goal_env.
Proof. exact example_margin. Qed.

Lemma below_hand_margin : x_z_margin MoreExamples.below_hand_env < 0.
Proof.
  unfold x_z_margin, norm3, sub3, add3. cbn.
  match goal with
  | |- sqrt ?e - 0.005 < 0 =>
      assert (H : sqrt e = 0) by (apply sqrt_eq_of_square; lra); lra
  end.
Qed.

Section Runs.

Context {U : reward_utils.Tolerance}.

(** With the object on the target the reward is the flat bonus. *)
Example reward_on_target :
  exists tcp_to_obj object_grasped in_place,
    compute_reward Examples.env Examples.action [0; 0.6; 0.2; 1; 0; 0.85; 0]
    = Ok (10, tcp_to_obj, 1, 0, object_grasped, in_place).
Proof.
  destruct (compute_reward_locals_run Examples.env Examples.action
              [0; 0.6; 0.2; 1; 0; 0.85; 0])
    as (l & cl & Hl & _ & Hobj & Hopen & _ & Htt & _ & _ & _ & _ & _ & _
        & Hr & Hret); [simpl; lia | discriminate | exact example_margin |].
  rewrite (compute_reward_run _ _ _ _ Hl).
  rewrite Hobj in Htt, Hret. cbv [nth] in Htt, Hret, Hopen.
  assert (Et : target_to_obj l < TARGET_RADIUS).
  { rewrite Htt.
    cbv [Examples.env __init__ Examples.blank _target_pos norm3 sub3 mul3
         i0 i1 i2 TARGET_RADIUS].
    apply sqrt_lt_of_square; lra. }
  assert (Ed : ret_target_to_obj l = 0).
  { rewrite Hret.
    cbv [Examples.env __init__ Examples.blank _target_pos norm3 sub3
         i0 i1 i2].
    apply sqrt_eq_of_square; lra. }
  apply Rltb_true in Et. rewrite Et in Hr.
  exists (tcp_to_obj l), (object_grasped l), (in_place l).
  rewrite Hopen, Ed. do 2 f_equal. repeat f_equal. lra.
Qed.

(** Past the goal line and 20 cm to the side, [in_place] loses 0.4. *)
Example goal_line_penalty :
  exists l,
    compute_reward_locals Examples.env Examples.action
      MoreExamples.obs_past_goal_line = Ok l /\
    in_place l = Rmin (Rmax (in_place0 l - 0.4) 0) 1.
Proof.
  destruct (compute_reward_locals_run Examples.env Examples.action
              MoreExamples.obs_past_goal_line)
    as (l & cl & Hl & _ & Hobj & _ & _ & _ & _ & _ & Hgl & Hip & _);
    [simpl; lia | discriminate | exact example_margin |].
  exists l. split; [exact Hl |].
  rewrite Hip, Hgl, Hobj.
  cbv [MoreExamples.obs_past_goal_line nth Examples.env __init__
       Examples.blank _target_pos i0 i1].
  replace (0.8 >? 0.85 - 0.1) with true
    by (symmetry; apply Rgtb_true; lra).
  replace (Rabs (0.2 - 0) >? 0.10) with true
    by (symmetry; apply Rgtb_true; rewrite Rabs_pos_eq; lra).
  cbn [andb]. rewrite float_div_some by lra. unfold clip.
  replace 0.0 with 0 by lra. replace 1.0 with 1 by lra.
  do 2 f_equal. lra.
Qed.

(** With the goal line at 1 the penalty is infinite and [in_place] is 0,
    whatever the tolerance function gave. *)
Example goal_line_at_one :
  exists l,
    compute_reward_locals MoreExamples.far_goal_env Examples.action
      MoreExamples.obs_past_far_goal = Ok l /\
    goal_line l = 1 /\
    in_place l = 0.
Proof.
  destruct (compute_reward_locals_run MoreExamples.far_goal_env
              Examples.action MoreExamples.obs_past_far_goal)
    as (l & cl & Hl & _ & Hobj & _ & _ & _ & _ & _ & Hgl & Hip & _);
    [simpl; lia | discriminate | exact far_goal_margin |].
  exists l. split; [exact Hl |].
  assert (Eg : goal_line l = 1) by (rewrite Hgl; cbn; lra).
  split; [exact Eg |].
  rewrite Hip, Eg, Hobj.
  cbv [MoreExamples.obs_past_far_goal nth MoreExamples.far_goal_env
       set__target_pos _target_pos i0 i1].
  replace (1.05 >? 1) with true by (symmetry; apply Rgtb_true; lra).
  replace (Rabs (0.2 - 0) >? 0.10) with true
    by (symmetry; apply Rgtb_true; rewrite Rabs_pos_eq; lra).
  cbn [andb]. replace (1 - 1) with 0 by lra.
  rewrite float_div_none. lra.
Qed.

(** An empty action fails at [action[-1]], after the first assertions. *)
Example empty_action_raises :
  _gripper_caging_reward Examples.env [] (V3 0 0.6 0.03) OBJ_RADIUS
  = Raise IndexError.
Proof.
  apply gripper_caging_reward_raises, caging_locals_empty_action;
    [exact OBJ_RADIUS_fits | exact example_margin].
Qed.

(** With the object's initial position straight below the initial end
    effector the margin for the x/z alignment is -0.005 and the reward
    cannot be computed. *)
Example negative_margin_raises :
  compute_reward MoreExamples.below_hand_env Examples.action
    Examples.obs_lifted = Raise ValueError.
Proof.
  apply compute_reward_caging_raises; [simpl; lia |].
  apply gripper_caging_reward_raises, caging_locals_negative_margin;
    [exact OBJ_RADIUS_fits | exact below_hand_margin].
Qed.

(** A radius of 6 cm does not fit between the pads. *)
Example wide_radius_raises :
  _gripper_caging_reward Examples.env Examples.action (V3 0 0.6 0.03) 0.06
  = Raise ValueError.
Proof.
  apply gripper_caging_reward_raises, caging_locals_wide_radius. lra.
Qed.

(** Observations that are too short fail before any reward is computed. *)
Example short_observation_raises :
  compute_reward Examples.env Examples.action [0; 0.6; 0.2]
  = Raise IndexError /\
  compute_reward Examples.env Examples.action [0; 0.6; 0.2; 1]
  = Raise ValueError /\
  compute_reward Examples.env Examples.action [0; 0.6; 0.2; 1; 0]
  = Raise IndexError /\
  compute_reward Examples.env Examples.action [0; 0.6; 0.2; 1; 0; 0.6]
  = Raise ValueError.
Proof. repeat split; reflexivity. Qed.

(** Without a task the decorated method does not run. *)
Example no_task_raises (self : SawyerSoccerEnvV2) obs action :
  _set_task_called (super self) = false ->
  evaluate_state self obs action = Raise RuntimeError.
Proof.
  intros H. unfold evaluate_state, _assert_task_is_set. rewrite H.
  reflexivity.
Qed.

End Runs.

(** * Further properties *)

(** ** The task sampler, continued *)

Section SamplerMore.

Variable _reset_hand : SawyerSoccerEnvV2 -> SawyerXYZEnv.
Variable _set_obj_xyz : vec3 -> SawyerSoccerEnvV2 -> SawyerXYZEnv.
Variable _get_obs : SawyerSoccerEnvV2 -> list R.

(** The loop only assigns [_target_pos] and uses up draws. *)
Lemma reset_model_loop_frame fuel :
  forall goal_pos self goal_pos' self',
    reset_model_loop fuel goal_pos self = Some (goal_pos', self') ->
    super self' = super self /\
    init_config self' = init_config self /\
    goal self' = goal self /\
    obj_init_angle self' = obj_init_angle self /\
    hand_init_pos self' = hand_init_pos self /\
    _random_reset_space self' = _random_reset_space self /\
    goal_space self' = goal_space self.
Proof.
  induction fuel as [| fuel IH]; intros goal_pos self goal_pos' self';
    simpl;
    destruct (norm2 (sub2 (firsttwo6 goal_pos)
                          (firsttwo3 (_target_pos self))) <? 0.15).
  - discriminate.
  - intros [= <- <-]. repeat split.
  - intros Hrun. apply IH in Hrun. exact Hrun.
  - intros [= <- <-]. repeat split.
Qed.

(** More fuel does not change what the loop hands back. *)
Lemma reset_model_loop_fuel fuel :
  forall fuel' goal_pos self r,
    reset_model_loop fuel goal_pos self = Some r ->
    (fuel <= fuel')%nat ->
    reset_model_loop fuel' goal_pos self = Some r.
Proof.
  induction fuel as [| fuel IH]; intros fuel' goal_pos self r; simpl;
    destruct (norm2 (sub2 (firsttwo6 goal_pos)
                          (firsttwo3 (_target_pos self))) <? 0.15) eqn:E;
    intros Hrun Hle; try discriminate.
  - destruct fuel'; simpl; rewrite E; exact Hrun.
  - destruct fuel' as [| fuel']; [lia |].
    simpl. rewrite E. apply IH; [exact Hrun | lia].
  - destruct fuel'; simpl; rewrite E; exact Hrun.
Qed.

(** X1.  When [reset_model] returns, the draw it keeps is the first one
    whose object and goal are at least 0.15 apart in the plane: every
    earlier draw was closer and was thrown away, and the random source has
    handed out exactly the draws up to the kept one.  [target_pos] and
    [_target_pos] are the same position, [maxPushDist] is the planar
    distance of the kept draw, and the observation returned is the one
    read from the final state. *)
Theorem reset_model_keeps_first_far_draw fuel self obs' self' :
  reset_model _reset_hand _set_obj_xyz _get_obs fuel self
  = Some (obs', self') ->
  exists k,
    (k <= fuel)%nat /\
    separation (rand_vecs self k) >= 0.15 /\
    (forall i, (i < k)%nat -> separation (rand_vecs self i) < 0.15) /\
    firsttwo3 (obj_init_pos self') = firsttwo6 (rand_vecs self k) /\
    _target_pos self' = from3 (rand_vecs self k) /\
    target_pos self' = _target_pos self' /\
    maxPushDist self' = separation (rand_vecs self k) /\
    maxPushDist self'
    = norm2 (sub2 (firsttwo3 (obj_init_pos self'))
                  (firsttwo3 (_target_pos self'))) /\
    (forall n, rand_vecs self' n = rand_vecs self (S k + n)%nat) /\
    obs' = _get_obs self'.
Proof.
  intros Hrun.
  assert (Hobs : obs' = _get_obs self').
  { revert Hrun. unfold reset_model. cbn [_get_state_rand_vec].
    match goal with
    | |- context [reset_model_loop fuel ?g ?s] =>
        destruct (reset_model_loop fuel g s) as [[g' s'] |]
    end; [| discriminate].
    intros [= <- <-]. reflexivity. }
  apply reset_model_returns in Hrun.
  destruct Hrun as (k & Hk & Hfar & Hnear & Ht & Htp & Ho & Hm & Hr).
  exists k. split; [exact Hk |]. split; [lra |].
  split; [exact Hnear |]. split; [rewrite Ho; reflexivity |].
  split; [exact Ht |]. split; [rewrite Htp, Ht; reflexivity |].
  split; [exact Hm |]. split; [rewrite Hm, Ho, Ht; reflexivity |].
  split; [exact Hr | exact Hobs].
Qed.

(** X2.  [reset_model] returns within [fuel] runs of its loop body exactly
    when one of the first [fuel + 1] draws has object and goal at least
    0.15 apart in the plane.  If no draw ever does, it returns for no
    amount of fuel: the loop of the source does not end. *)
Theorem reset_model_returns_iff fuel self :
  ((exists r,
       reset_model _reset_hand _set_obj_xyz _get_obs fuel self = Some r) <->
   (exists k, (k <= fuel)%nat /\ separation (rand_vecs self k) >= 0.15)) /\
  ((forall k, separation (rand_vecs self k) < 0.15) ->
   forall fuel',
     reset_model _reset_hand _set_obj_xyz _get_obs fuel' self = None).
Proof.
  split; [split |].
  - intros [[obs' self'] Hrun]. apply reset_model_returns in Hrun.
    destruct Hrun as (k & Hk & Hfar & _). exists k. split; [exact Hk | lra].
  - intros (k & Hk & Hfar).
    apply (reset_model_terminates _ _ _ fuel self k Hk). lra.
  - intros Hclose fuel'.
    destruct (reset_model _reset_hand _set_obj_xyz _get_obs fuel' self)
      as [[obs' self'] |] eqn:Hrun; [| reflexivity].
    apply reset_model_returns in Hrun.
    destruct Hrun as (k & _ & Hfar & _).
    exfalso. apply Hfar, Hclose.
Qed.

(** A result of [reset_model] does not depend on the fuel: once it
    returns with some fuel, it returns the same observation and state with
    any larger fuel. *)
Theorem reset_model_fuel_irrelevant fuel fuel' self r :
  reset_model _reset_hand _set_obj_xyz _get_obs fuel self = Some r ->
  (fuel <= fuel')%nat ->
  reset_model _reset_hand _set_obj_xyz _get_obs fuel' self = Some r.
Proof.
  unfold reset_model. cbn [_get_state_rand_vec].
  match goal with
  | |- context [reset_model_loop fuel ?g ?s] =>
      destruct (reset_model_loop fuel g s) as [[g' s'] |] eqn:Hloop
  end; [| discriminate].
  intros Hrun Hle.
  rewrite (reset_model_loop_fuel fuel fuel' _ _ _ Hloop Hle). exact Hrun.
Qed.

(** X3.  [reset_model] leaves the configuration of the task alone: the
    initial configuration, the default goal, the hand's initial position,
    the reset space and the goal space are as before, and so is the height
    of the object's initial position; the object's initial angle is set
    back to the configured one. *)
Theorem reset_model_keeps_configuration fuel self obs' self' :
  reset_model _reset_hand _set_obj_xyz _get_obs fuel self
  = Some (obs', self') ->
  init_config self' = init_config self /\
  goal self' = goal self /\
  hand_init_pos self' = hand_init_pos self /\
  _random_reset_space self' = _random_reset_space self /\
  goal_space self' = goal_space self /\
  i2 (obj_init_pos self') = i2 (obj_init_pos self) /\
  obj_init_angle self' = cfg_obj_init_angle (init_config self).
Proof.
  intros Hrun.
  assert (Hz : i2 (obj_init_pos self') = i2 (obj_init_pos self)).
  { apply reset_model_returns in Hrun.
    destruct Hrun as (k & _ & _ & _ & _ & _ & Ho & _).
    rewrite Ho. reflexivity. }
  revert Hrun. unfold reset_model. cbn [_get_state_rand_vec].
  match goal with
  | |- context [reset_model_loop fuel ?g ?s] =>
      destruct (reset_model_loop fuel g s) as [[g' s'] |] eqn:Hloop
  end; [| discriminate].
  intros [= <- <-].
  apply reset_model_loop_frame in Hloop.
  destruct Hloop as (_ & Hc & Hg & Ha & Hh & Hs & Hgs).
  cbn in *. rewrite Hc in *. repeat split; assumption.
Qed.

End SamplerMore.

Section SamplerEpisodes.

Variable _reset_hand : SawyerSoccerEnvV2 -> SawyerXYZEnv.
Variable _set_obj_xyz : vec3 -> SawyerSoccerEnvV2 -> SawyerXYZEnv.
Variable _get_obs : SawyerSoccerEnvV2 -> list R.

Lemma reset_model_space_kept fuel self obs' self' :
  reset_model _reset_hand _set_obj_xyz _get_obs fuel self
  = Some (obs', self') ->
  _random_reset_space self' = _random_reset_space self.
Proof.
  unfold reset_model. cbn [_get_state_rand_vec].
  match goal with
  | |- context [reset_model_loop fuel ?g ?s] =>
      destruct (reset_model_loop fuel g s) as [[g' s'] |] eqn:Hloop
  end; [| discriminate].
  intros [= <- <-].
  apply reset_model_loop_frame in Hloop.
  destruct Hloop as (_ & _ & _ & _ & _ & Hs & _).
  cbn. exact Hs.
Qed.

(** One reset in the constructor's reset space. *)
Lemma reset_model_configured_once self :
  _random_reset_space self = _random_reset_space (__init__ self) ->
  draws_in_space self ->
  exists obs' self',
    reset_model _reset_hand _set_obj_xyz _get_obs 0 self
    = Some (obs', self') /\
    obj_init_pos self' = V3 0 0.65 (i2 (obj_init_pos self)) /\
    _target_pos self' = V3 0 0.85 0.0 /\
    maxPushDist self' = 0.20 /\
    (forall m, rand_vecs self' m = rand_vecs self (S m)) /\
    _random_reset_space self' = _random_reset_space self.
Proof.
  intros Hbox Hdraws.
  pose proof (configured_separation self 0 Hbox Hdraws) as Hsep.
  destruct (reset_model_terminates _reset_hand _set_obj_xyz _get_obs
              0 self 0) as [[obs' self'] Hrun]; [lia | lra |].
  exists obs', self'. split; [exact Hrun |].
  pose proof (reset_model_space_kept _ _ _ _ Hrun) as Hkept.
  apply reset_model_returns in Hrun.
  destruct Hrun as (k & Hk & _ & _ & Ht & _ & Ho & Hm & Hr).
  assert (k = 0)%nat by lia. subst k.
  destruct (configured_draw self 0 Hbox Hdraws)
    as (E0 & E1 & _ & E3 & E4 & E5).
  split; [rewrite Ho, E0, E1; reflexivity |].
  split; [rewrite Ht; unfold from3; rewrite E3, E4, E5; reflexivity |].
  split; [rewrite Hm; exact Hsep |].
  split; [exact Hr | exact Hkept].
Qed.

(** X4.  In the reset space the constructor sets, with a random source
    that draws from it, any number of resets in a row go through without
    a single redraw, and after each of them the object starts at
    (0, 0.65) at the height it had, the target is at (0, 0.85, 0),
    [maxPushDist] is 0.20, and each reset has used one draw. *)
Theorem reset_model_repeat_configured n :
  forall self,
    _random_reset_space self = _random_reset_space (__init__ self) ->
    draws_in_space self ->
    exists self',
      reset_model_repeat _reset_hand _set_obj_xyz _get_obs (S n) 0 self
      = Some self' /\
      obj_init_pos self' = V3 0 0.65 (i2 (obj_init_pos self)) /\
      _target_pos self' = V3 0 0.85 0.0 /\
      maxPushDist self' = 0.20 /\
      (forall m, rand_vecs self' m = rand_vecs self (S n + m)%nat) /\
      _random_reset_space self' = _random_reset_space self.
Proof.
  induction n as [| n IH]; intros self Hbox Hdraws;
    destruct (reset_model_configured_once self Hbox Hdraws)
      as (obs1 & self1 & Hrun & Ho & Ht & Hm & Hr & Hs).
  - exists self1. cbn [reset_model_repeat]. rewrite Hrun.
    repeat split; assumption.
  - assert (Hbox1 : _random_reset_space self1
                    = _random_reset_space (__init__ self1))
      by (rewrite Hs; exact Hbox).
    assert (Hdraws1 : draws_in_space self1)
      by (intros m; rewrite Hr, Hs; apply Hdraws).
    destruct (IH self1 Hbox1 Hdraws1)
      as (self' & Hrep & Ho' & Ht' & Hm' & Hr' & Hs').
    exists self'.
    change (reset_model_repeat _reset_hand _set_obj_xyz _get_obs
              (S (S n)) 0 self)
      with (match reset_model _reset_hand _set_obj_xyz _get_obs 0 self with
            | None => None
            | Some (_, s) =>
                reset_model_repeat _reset_hand _set_obj_xyz _get_obs
                  (S n) 0 s
            end).
    rewrite Hrun. split; [exact Hrep |].
    split; [rewrite Ho', Ho; reflexivity |].
    split; [exact Ht' |]. split; [exact Hm' |].
    split; [| rewrite Hs'; exact Hs].
    intros m. rewrite Hr'. apply Hr.
Qed.

End SamplerEpisodes.

Lemma retry_first_draw_close :
  separation (rand_vecs MoreExamples.retry_env 0) < 0.15.
Proof.
  unfold separation. cbn. apply sqrt_lt_of_square; lra.
Qed.

Lemma retry_second_draw_far :
  ~ separation (rand_vecs MoreExamples.retry_env 1) < 0.15.
Proof.
  unfold separation. cbn. apply Rle_not_lt, sqrt_ge_of_square; lra.
Qed.

Lemma stuck_draws_close k :
  separation (rand_vecs MoreExamples.stuck_env k) < 0.15.
Proof.
  unfold separation. cbn. apply sqrt_lt_of_square; lra.
Qed.

(** X1 on a run that throws one draw away. *)
Lemma reset_model_keeps_first_far_draw_witness :
  exists obs' self',
    reset_model Examples.reset_hand_id Examples.set_obj_xyz_id
      Examples.get_obs_zero 1 MoreExamples.retry_env = Some (obs', self') /\
    exists k,
      (k <= 1)%nat /\
      separation (rand_vecs MoreExamples.retry_env k) >= 0.15 /\
      (forall i, (i < k)%nat ->
                 separation (rand_vecs MoreExamples.retry_env i) < 0.15) /\
      firsttwo3 (obj_init_pos self')
      = firsttwo6 (rand_vecs MoreExamples.retry_env k) /\
      _target_pos self' = from3 (rand_vecs MoreExamples.retry_env k) /\
      target_pos self' = _target_pos self' /\
      maxPushDist self' = separation (rand_vecs MoreExamples.retry_env k) /\
      maxPushDist self'
      = norm2 (sub2 (firsttwo3 (obj_init_pos self'))
                    (firsttwo3 (_target_pos self'))) /\
      (forall n, rand_vecs self' n
                 = rand_vecs MoreExamples.retry_env (S k + n)%nat) /\
      obs' = Examples.get_obs_zero self'.
Proof.
  destruct (reset_model_terminates Examples.reset_hand_id
              Examples.set_obj_xyz_id Examples.get_obs_zero 1
              MoreExamples.retry_env 1 (le_n 1) retry_second_draw_far)
    as [[obs' self'] Hrun].
  exists obs', self'. split; [exact Hrun |].
  exact (reset_model_keeps_first_far_draw Examples.reset_hand_id
           Examples.set_obj_xyz_id Examples.get_obs_zero 1
           MoreExamples.retry_env obs' self' Hrun).
Defined.

(** X2 on a reset space in which the goal always lands on the object. *)
Lemma reset_model_returns_iff_witness :
  (forall k, separation (rand_vecs MoreExamples.stuck_env k) < 0.15) /\
  forall fuel',
    reset_model Examples.reset_hand_id Examples.set_obj_xyz_id
      Examples.get_obs_zero fuel' MoreExamples.stuck_env = None.
Proof.
  split; [exact stuck_draws_close |].
  exact (proj2 (reset_model_returns_iff Examples.reset_hand_id
                  Examples.set_obj_xyz_id Examples.get_obs_zero 0
                  MoreExamples.stuck_env) stuck_draws_close).
Defined.

(** The same on a run that throws one draw away. *)
Lemma reset_model_fuel_irrelevant_witness :
  exists r,
    reset_model Examples.reset_hand_id Examples.set_obj_xyz_id
      Examples.get_obs_zero 1 MoreExamples.retry_env = Some r /\
    (1 <= 5)%nat /\
    reset_model Examples.reset_hand_id Examples.set_obj_xyz_id
      Examples.get_obs_zero 5 MoreExamples.retry_env = Some r.
Proof.
  destruct (reset_model_terminates Examples.reset_hand_id
              Examples.set_obj_xyz_id Examples.get_obs_zero 1
              MoreExamples.retry_env 1 (le_n 1) retry_second_draw_far)
    as [r Hrun].
  exists r. split; [exact Hrun |].
  assert (Hle : (1 <= 5)%nat) by lia.
  split; [exact Hle |].
  exact (reset_model_fuel_irrelevant Examples.reset_hand_id
           Examples.set_obj_xyz_id Examples.get_obs_zero 1 5
           MoreExamples.retry_env r Hrun Hle).
Defined.

(** X3 on a run that throws one draw away. *)
Lemma reset_model_keeps_configuration_witness :
  exists obs' self',
    reset_model Examples.reset_hand_id Examples.set_obj_xyz_id
      Examples.get_obs_zero 1 MoreExamples.retry_env = Some (obs', self') /\
    init_config self' = init_config MoreExamples.retry_env /\
    goal self' = goal MoreExamples.retry_env /\
    hand_init_pos self' = hand_init_pos MoreExamples.retry_env /\
    _random_reset_space self' = _random_reset_space MoreExamples.retry_env /\
    goal_space self' = goal_space MoreExamples.retry_env /\
    i2 (obj_init_pos self') = i2 (obj_init_pos MoreExamples.retry_env) /\
    obj_init_angle self'
    = cfg_obj_init_angle (init_config MoreExamples.retry_env).
Proof.
  destruct (reset_model_terminates Examples.reset_hand_id
              Examples.set_obj_xyz_id Examples.get_obs_zero 1
              MoreExamples.retry_env 1 (le_n 1) retry_second_draw_far)
    as [[obs' self'] Hrun].
  exists obs', self'. split; [exact Hrun |].
  exact (reset_model_keeps_configuration Examples.reset_hand_id
           Examples.set_obj_xyz_id Examples.get_obs_zero 1
           MoreExamples.retry_env obs' self' Hrun).
Defined.

(** X4 on three resets of the environment as constructed. *)
Lemma reset_model_repeat_configured_witness :
  (_random_reset_space Examples.env
   = _random_reset_space (__init__ Examples.env) /\
   draws_in_space Examples.env) /\
  exists self',
    reset_model_repeat Examples.reset_hand_id Examples.set_obj_xyz_id
      Examples.get_obs_zero 3 0 Examples.env = Some self' /\
    obj_init_pos self' = V3 0 0.65 (i2 (obj_init_pos Examples.env)) /\
    _target_pos self' = V3 0 0.85 0.0 /\
    maxPushDist self' = 0.20 /\
    (forall m, rand_vecs self' m = rand_vecs Examples.env (3 + m)%nat) /\
    _random_reset_space self' = _random_reset_space Examples.env.
Proof.
  split; [split; [reflexivity | exact example_draws_in_space] |].
  exact (reset_model_repeat_configured Examples.reset_hand_id
           Examples.set_obj_xyz_id Examples.get_obs_zero 2 Examples.env
           eq_refl example_draws_in_space).
Defined.

(** ** Distances *)

Lemma sqrt_le_of_square (x y : R) : 0 <= y -> x <= y * y -> sqrt x <= y.
Proof.
  intros Hy H. destruct (Rle_dec 0 x) as [Hx | Hx].
  - rewrite <- (sqrt_square y) by lra. apply sqrt_le_1; nra.
  - rewrite sqrt_neg_0 by lra. exact Hy.
Qed.

(** Tripling the first axis stretches a distance by a factor between 1
    and 3. *)
Lemma weighted_distance_bounds (p q : vec3) :
  euclidean_distance p q <= weighted_distance p q <= 3 * euclidean_distance p q.
Proof.
  unfold euclidean_distance, weighted_distance.
  set (dx := i0 p - i0 q). set (dy := i1 p - i1 q). set (dz := i2 p - i2 q).
  assert (Hs : 0 <= dx * dx + dy * dy + dz * dz) by nra.
  split.
  - apply sqrt_le_1; nra.
  - apply sqrt_le_of_square.
    + pose proof (sqrt_pos (dx * dx + dy * dy + dz * dz)). lra.
    + replace (3 * sqrt (dx * dx + dy * dy + dz * dz)
               * (3 * sqrt (dx * dx + dy * dy + dz * dz)))
        with (9 * (sqrt (dx * dx + dy * dy + dz * dz)
                   * sqrt (dx * dx + dy * dy + dz * dz))) by ring.
      rewrite sqrt_sqrt by exact Hs. nra.
Qed.

(** A distance in space is at least the distance in the plane of the
    first two axes. *)
Lemma planar_distance_le (p q : vec3) :
  norm2 (sub2 (firsttwo3 p) (firsttwo3 q)) <= euclidean_distance p q.
Proof.
  unfold norm2, sub2, firsttwo3, euclidean_distance. cbn [fst snd].
  set (dx := i0 p - i0 q). set (dy := i1 p - i1 q). set (dz := i2 p - i2 q).
  apply sqrt_le_1; nra.
Qed.


(** ** The reward composer, continued *)

Section ComposerMore.

Context {U : reward_utils.Tolerance}.
Import reward_utils.

(** X5.  On an observation of at least seven entries, a non-empty action
    and a margin for the x/z alignment that is not negative, the reward of
    [compute_reward] lies between 0 and 10.  It is 10 exactly when the
    distance to the target with the first axis tripled is below
    [TARGET_RADIUS]; in every other state it is at most 9.5.  The grasp
    score and the in-place score returned with it lie in the unit
    interval. *)
Theorem compute_reward_range self action obs :
  (7 <= List.length obs)%nat -> action <> [] -> 0 <= x_z_margin self ->
  exists l,
    compute_reward self action obs
    = Ok (reward l, tcp_to_obj l, tcp_opened l, ret_target_to_obj l,
          object_grasped l, in_place l) /\
    obj l = V3 (nth 4 obs 0) (nth 5 obs 0) (nth 6 obs 0) /\
    0 <= reward l <= 10 /\
    (reward l = 10 <->
     weighted_distance (obj l) (_target_pos self) < TARGET_RADIUS) /\
    (reward l <> 10 -> reward l <= 9.5) /\
    0 <= object_grasped l <= 1 /\
    0 <= in_place l <= 1.
Proof.
  intros Hobs Hact Hm.
  destruct (compute_reward_locals_run self action obs Hobs Hact Hm)
    as (l & cl & Hl & _ & Hobj & _ & _ & Htt & _ & _ & _ & _ & _
        & Hr0 & Hr & _).
  destruct (compute_reward_scores_range self action obs l Hobs Hact Hm Hl)
    as (Hg & _ & Hp & Hle).
  exists l. split; [apply compute_reward_run, Hl |].
  split; [exact Hobj |].
  change (weighted_distance (obj l) (_target_pos self))
    with (norm3 (mul3 (sub3 (obj l) (_target_pos self)) (V3 3.0 1.0 1.0))).
  rewrite <- Htt.
  assert (H0 : 0 <= reward0 l) by (rewrite Hr0; lra).
  destruct (target_to_obj l <? TARGET_RADIUS) eqn:E.
  - assert (Er : reward l = 10) by (rewrite Hr; lra).
    apply Rltb_true in E.
    repeat split; try tauto; lra.
  - assert (Er : reward l = reward0 l) by exact Hr.
    apply Rltb_false in E.
    repeat split; try tauto; try lra; intros H10; lra.
Qed.


(** X7.  Once a task is set, on a run that returns, [evaluate_state]
    hands on the reward of [compute_reward] and repeats it under
    [unscaled_reward]; a reward of 10 always comes with [success] at 1,
    and with [success] at 0 the reward is at most 9.5. *)
Theorem evaluate_state_bonus_success self obs action :
  _set_task_called (super self) = true ->
  (7 <= List.length obs)%nat -> action <> [] -> 0 <= x_z_margin self ->
  exists reward info to_obj opened to_target grasped placed,
    evaluate_state self obs action = Ok (reward, info) /\
    compute_reward self action obs
    = Ok (reward, to_obj, opened, to_target, grasped, placed) /\
    unscaled_reward info = reward /\
    0 <= reward <= 10 /\
    (reward = 10 -> success info = 1) /\
    (success info = 0 -> reward <= 9.5).
Proof.
  intros Htask Hobs Hact Hm.
  destruct (compute_reward_locals_run self action obs Hobs Hact Hm)
    as (l & cl & Hl & _ & _ & _ & _ & Htt & _ & _ & _ & _ & _
        & Hr0 & Hr & Hret).
  destruct (compute_reward_scores_range self action obs l Hobs Hact Hm Hl)
    as (Hg & _ & Hp & Hle).
  pose proof (weighted_distance_bounds (obj l) (_target_pos self)) as Hb.
  change (weighted_distance (obj l) (_target_pos self))
    with (norm3 (mul3 (sub3 (obj l) (_target_pos self)) (V3 3.0 1.0 1.0)))
    in Hb.
  change (euclidean_distance (obj l) (_target_pos self))
    with (norm3 (sub3 (obj l) (_target_pos self))) in Hb.
  rewrite <- Htt, <- Hret in Hb.
  assert (H0 : 0 <= reward0 l) by (rewrite Hr0; lra).
  do 7 eexists.
  split; [apply (evaluate_state_run self obs action l Htask Hobs Hl) |].
  split; [apply compute_reward_run, Hl |].
  cbn [unscaled_reward success]. split; [reflexivity |].
  unfold TARGET_RADIUS in *.
  destruct (target_to_obj l <? 0.07) eqn:E.
  - apply Rltb_true in E.
    assert (Es : (ret_target_to_obj l <=? 0.07) = true)
      by (apply Rleb_true; lra).
    rewrite Hr, Es. cbn [float]. repeat split; intros; lra.
  - apply Rltb_false in E. rewrite Hr.
    repeat split; intros; try lra.
Qed.

End ComposerMore.

Section ComposerInputs.

Context {U : reward_utils.Tolerance}.
Import reward_utils.

(** X8.  The reward does not look at the action: for one state and one
    observation, any two non-empty actions give the same result of
    [compute_reward], all six components, and the same result of
    [evaluate_state], whether a value or an exception. *)
Theorem reward_ignores_action self obs action1 action2 :
  action1 <> [] -> action2 <> [] ->
  compute_reward self action1 obs = compute_reward self action2 obs /\
  evaluate_state self obs action1 = evaluate_state self obs action2.
Proof.
  intros H1 H2.
  assert (E : compute_reward self action1 obs
              = compute_reward self action2 obs).
  { unfold compute_reward, compute_reward_locals.
    destruct (index obs 3) as [opened | e]; [| reflexivity].
    destruct (as_vec3 (slice obs 4 7)) as [o | e]; [| reflexivity].
    cbn [bind].
    destruct (tolerance _ _ _ _) as [ip | e]; [| reflexivity].
    cbn [bind].
    rewrite (caging_reward_same_for_actions self action1 action2 o
               OBJ_RADIUS H1 H2).
    reflexivity. }
  split; [exact E |].
  unfold evaluate_state, _assert_task_is_set, evaluate_state_body.
  rewrite E. reflexivity.
Qed.

(** X9.  Of the observation the reward reads entries 3 to 6 and nothing
    else: two observations of at least seven entries that agree there give
    the same result of [compute_reward] and of [evaluate_state]. *)
Theorem reward_reads_entries_3_to_6 self action obs1 obs2 :
  (7 <= List.length obs1)%nat -> (7 <= List.length obs2)%nat ->
  nth 3 obs1 0 = nth 3 obs2 0 -> nth 4 obs1 0 = nth 4 obs2 0 ->
  nth 5 obs1 0 = nth 5 obs2 0 -> nth 6 obs1 0 = nth 6 obs2 0 ->
  compute_reward self action obs1 = compute_reward self action obs2 /\
  evaluate_state self obs1 action = evaluate_state self obs2 action.
Proof.
  intros L1 L2 E3 E4 E5 E6.
  destruct (obs_layout obs1 L1) as [A1 B1].
  destruct (obs_layout obs2 L2) as [A2 B2].
  assert (E : compute_reward self action obs1
              = compute_reward self action obs2).
  { unfold compute_reward, compute_reward_locals.
    rewrite A1, A2, B1, B2, E3, E4, E5, E6. reflexivity. }
  split; [exact E |].
  unfold evaluate_state, _assert_task_is_set, evaluate_state_body.
  rewrite E, B1, B2, E4, E5, E6. reflexivity.
Qed.

(** X10.  [compute_reward] returns a value exactly when the observation
    has at least seven entries, the action is not empty and the margin for
    the x/z alignment is not negative.  On a full observation a negative
    margin makes it raise [ValueError], whatever the action.  Whatever the
    inputs, it never ends in a failed assertion. *)
Theorem compute_reward_returns_iff self action obs :
  ((exists v, compute_reward self action obs = Ok v) <->
   (7 <= List.length obs)%nat /\ action <> [] /\ 0 <= x_z_margin self) /\
  ((7 <= List.length obs)%nat -> x_z_margin self < 0 ->
   compute_reward self action obs = Raise ValueError) /\
  compute_reward self action obs <> Raise AssertionError.
Proof.
  split; [split | split].
  - intros [v Hv]. apply (compute_reward_returns self action obs v Hv).
  - intros (Hlen & Hact & Hm).
    destruct (compute_reward_locals_run self action obs Hlen Hact Hm)
      as (l & _ & Hl & _).
    eexists. apply compute_reward_run, Hl.
  - intros Hlen Hm. apply compute_reward_caging_raises; [exact Hlen |].
    apply gripper_caging_reward_raises, caging_locals_negative_margin;
      [exact OBJ_RADIUS_fits | exact Hm].
  - destruct (Nat.lt_ge_cases (List.length obs) 7) as [Hlen | Hlen].
    { rewrite compute_reward_short_raises by exact Hlen.
      destruct (List.length obs) as [| [| [| [| [| [| [| n]]]]]]];
        discriminate. }
    destruct (_gripper_caging_reward_locals self action
                (V3 (nth 4 obs 0) (nth 5 obs 0) (nth 6 obs 0)) OBJ_RADIUS)
      as [cl | e] eqn:Hcl.
    + destruct (caging_locals_returns _ _ _ _ _ Hcl) as (Ha & _ & Hm).
      destruct (compute_reward_locals_run self action obs Hlen Ha Hm)
        as (l & _ & Hl & _).
      rewrite (compute_reward_run _ _ _ _ Hl). discriminate.
    + rewrite (compute_reward_caging_raises self action obs e Hlen
                 (gripper_caging_reward_raises _ _ _ _ _ Hcl)).
      intros [= ->].
      apply (caging_locals_no_assertion _ _ _ _ Hcl).
Qed.

(** X11.  On an observation of fewer than seven entries [compute_reward]
    raises before it looks at the action: [ValueError] when the
    observation has four or six entries, the object slice then having
    zero or two components, which do not combine with three; [IndexError]
    otherwise. *)
Theorem compute_reward_short_observation self action obs :
  (List.length obs < 7)%nat ->
  compute_reward self action obs
  = Raise (match List.length obs with
           | 4%nat | 6%nat => ValueError
           | _ => IndexError
           end).
Proof.
  intros Hlen.
  do 7 (destruct obs as [| ? obs]; [reflexivity |]).
  simpl in Hlen. lia.
Qed.

(** X12.  With an empty action, a radius within the pad margin and a
    margin for the x/z alignment that is not negative, the caging reward
    raises [IndexError] at [action[-1]], and so does [compute_reward] on
    every observation of at least seven entries.  With a wider radius or a
    negative margin the tolerance function has raised [ValueError] before
    that line is reached. *)
Theorem empty_action_index_error self obs obj_position obj_radius :
  (7 <= List.length obs)%nat ->
  (obj_radius <= 0.05 -> 0 <= x_z_margin self ->
   _gripper_caging_reward self [] obj_position obj_radius
   = Raise IndexError) /\
  (0 <= x_z_margin self -> compute_reward self [] obs = Raise IndexError) /\
  (obj_radius > 0.05 \/ x_z_margin self < 0 ->
   _gripper_caging_reward self [] obj_position obj_radius
   = Raise ValueError) /\
  (x_z_margin self < 0 -> compute_reward self [] obs = Raise ValueError).
Proof.
  intros Hlen. split; [| split; [| split]].
  - intros Hr Hm.
    apply gripper_caging_reward_raises, caging_locals_empty_action;
      assumption.
  - intros Hm. apply compute_reward_caging_raises; [exact Hlen |].
    apply gripper_caging_reward_raises, caging_locals_empty_action;
      [exact OBJ_RADIUS_fits | exact Hm].
  - intros H. apply gripper_caging_reward_raises.
    destruct (Rle_dec obj_radius 0.05) as [Hr | Hr].
    + apply caging_locals_negative_margin; [exact Hr |].
      destruct H as [H | H]; lra.
    + apply caging_locals_wide_radius. lra.
  - intros Hm. apply compute_reward_caging_raises; [exact Hlen |].
    apply gripper_caging_reward_raises, caging_locals_negative_margin;
      [exact OBJ_RADIUS_fits | exact Hm].
Qed.

(** X13.  On a run that returns, when the target's second coordinate is
    below 1.1, so that the goal line is below 1, the goal-line rule never
    raises the in-place score: [in_place] is at most what the tolerance
    function gave, and where the rule applies it is 0 or less than that
    value. *)
Theorem goal_line_lowers_in_place self action obs :
  (7 <= List.length obs)%nat -> action <> [] -> 0 <= x_z_margin self ->
  i1 (_target_pos self) < 1.1 ->
  exists l,
    compute_reward_locals self action obs = Ok l /\
    in_place l <= in_place0 l /\
    (i1 (obj l) > goal_line l /\
     Rabs (i0 (obj l) - i0 (_target_pos self)) > 0.10 ->
     in_place l = 0 \/ in_place l < in_place0 l).
Proof.
  intros Hobs Hact Hm Hy.
  destruct (compute_reward_locals_run self action obs Hobs Hact Hm)
    as (l & cl & Hl & _ & _ & _ & _ & _ & _ & Hip0 & Hgl & Hip & _).
  destruct (compute_reward_scores_range self action obs l Hobs Hact Hm Hl)
    as (_ & R0 & _).
  exists l. split; [exact Hl |].
  assert (Hpen : i1 (obj l) > goal_line l ->
                 0 < 2 * ((i1 (obj l) - goal_line l) / (1 - goal_line l))).
  { intros Hpast. apply Rmult_lt_0_compat; [lra |].
    apply Rdiv_lt_0_compat; lra. }
  rewrite float_div_some in Hip by lra.
  destruct ((i1 (obj l) >? goal_line l)
            && (Rabs (i0 (obj l) - i0 (_target_pos self)) >? 0.10)) eqn:E.
  - apply andb_prop in E. destruct E as [E1 _]. apply Rgtb_true in E1.
    specialize (Hpen E1).
    assert (Hc : in_place l = 0 \/ in_place l < in_place0 l).
    { rewrite Hip. unfold clip, Rmin, Rmax.
      destruct (Rle_dec _ 0.0); destruct (Rle_dec _ 1.0); lra. }
    split; [lra | intros _; exact Hc].
  - split; [rewrite Hip; lra |].
    intros [H1 H2]. apply Rgtb_true in H1, H2.
    rewrite H1, H2 in E. discriminate.
Qed.

End ComposerInputs.

(** ** The caging reward, continued *)

(** Removing the second component from two positions and taking the norm
    of the difference gives the distance in the plane of the first and
    third axes. *)
Lemma norm_without_second_axis (a b : vec3) :
  norm3 (sub3 (add3 a (V3 0.0 (- i1 a) 0.0)) (add3 b (V3 0.0 (- i1 b) 0.0)))
  = sqrt ((i0 a - i0 b) * (i0 a - i0 b) + (i2 a - i2 b) * (i2 a - i2 b)).
Proof.
  unfold norm3, sub3, add3. cbn [i0 i1 i2]. f_equal.
  replace 0.0 with 0 by lra. ring.
Qed.

Section CagingMore.

Context {U : reward_utils.Tolerance}.
Import reward_utils.

(** X14.  Where the caging reward returns, it has a jump at
    [caging = 0.95]: up to there it is half of [caging], so at most 0.475;
    above, it is the mean of [caging] and [y_gripping] and exceeds 0.475.
    The returned value is above 0.475 exactly when [caging] is above
    0.95. *)
Theorem gripper_caging_reward_threshold
    self action obj_position obj_radius :
  action <> [] -> obj_radius <= 0.05 -> 0 <= x_z_margin self ->
  exists l v,
    _gripper_caging_reward_locals self action obj_position obj_radius
    = Ok l /\
    _gripper_caging_reward self action obj_position obj_radius = Ok v /\
    (caging l <= 0.95 -> v = caging l / 2) /\
    (caging l > 0.95 -> v = (caging l + y_gripping l) / 2) /\
    (v > 0.475 <-> caging l > 0.95) /\
    caging l / 2 <= v.
Proof.
  intros Ha Hr Hm.
  destruct (caging_locals_run self action obj_position obj_radius Ha Hr Hm)
    as (l & Hl & _ & _ & _ & _ & _ & _ & _ & _ & _ & Hg & Hcg).
  destruct (caging_locals_range self action obj_position obj_radius l Hl)
    as (_ & _ & _ & _ & _ & Ryg & _ & _ & Rc & Rg & _).
  exists l, (caging_and_gripping l). split; [exact Hl |].
  split; [apply gripper_caging_reward_run, Hl |].
  rewrite Hcg.
  destruct (caging l >? 0.95) eqn:E.
  - apply Rgtb_true in E. rewrite Hg in *.
    repeat split; intros; lra.
  - apply Rgtb_false in E. rewrite Hg in *.
    repeat split; intros; lra.
Qed.

(** X15.  The x/z alignment of the caging reward does not see the second
    axis.  Its margin is the distance between the initial object position
    and the initial end effector in the plane of the first and third
    axes, less 0.005; where that is not negative and the function
    returns, the alignment score is the tolerance of the distance between
    end effector and object in the same plane, with bounds (0, 0.005) and
    that margin. *)
Theorem x_z_caging_ignores_second_axis
    self action obj_position obj_radius :
  action <> [] -> obj_radius <= 0.05 -> 0 <= x_z_margin self ->
  exists l,
    _gripper_caging_reward_locals self action obj_position obj_radius
    = Ok l /\
    x_z_margin self
    = sqrt ((i0 (obj_init_pos self) - i0 (init_tcp (super self)))
            * (i0 (obj_init_pos self) - i0 (init_tcp (super self)))
            + (i2 (obj_init_pos self) - i2 (init_tcp (super self)))
              * (i2 (obj_init_pos self) - i2 (init_tcp (super self))))
      - 0.005 /\
    tolerance
      (sqrt ((i0 (tcp_center (super self)) - i0 obj_position)
             * (i0 (tcp_center (super self)) - i0 obj_position)
             + (i2 (tcp_center (super self)) - i2 obj_position)
               * (i2 (tcp_center (super self)) - i2 obj_position)))
      (0, 0.005) (x_z_margin self) "long_tail"
    = Ok (x_z_caging l).
Proof.
  intros Ha Hr Hm.
  destruct (caging_locals_run self action obj_position obj_radius Ha Hr Hm)
    as (l & Hl & _ & _ & _ & _ & _ & _ & Hxz & _).
  exists l. split; [exact Hl |].
  split; [unfold x_z_margin; rewrite norm_without_second_axis; reflexivity |].
  rewrite <- Hxz, norm_without_second_axis. reflexivity.
Qed.

(** X16.  The caging reward is 1 when the grasp is as tight as the
    reward asks: each pad between [obj_radius] and [obj_radius + 0.01]
    from the object along the second axis, that window inside the caging
    window, which ends at 0.05, and the end effector within 5 mm of the
    object in the plane of the first and third axes; the margin for the
    x/z alignment must not be negative. *)
Theorem gripper_caging_reward_full self action obj_position obj_radius :
  action <> [] ->
  0 <= x_z_margin self ->
  obj_radius + 0.01 <= 0.05 ->
  obj_radius <= i1 obj_position - i1 (get_body_com (super self) "rightpad")
             <= obj_radius + 0.01 ->
  obj_radius <= i1 (get_body_com (super self) "leftpad") - i1 obj_position
             <= obj_radius + 0.01 ->
  (i0 (tcp_center (super self)) - i0 obj_position)
  * (i0 (tcp_center (super self)) - i0 obj_position)
  + (i2 (tcp_center (super self)) - i2 obj_position)
    * (i2 (tcp_center (super self)) - i2 obj_position)
  <= 0.005 * 0.005 ->
  _gripper_caging_reward self action obj_position obj_radius = Ok 1.
Proof.
  intros Ha Hm Hwin Hr Hl Hxz.
  destruct (caging_locals_run self action obj_position obj_radius Ha
              ltac:(lra) Hm)
    as (l & Hrun & Hrc & Hlc & Hrg & Hlg & Hyc & Hyg & Hx & _ & Hc & Hg
        & Hcg).
  rewrite (gripper_caging_reward_run _ _ _ _ _ Hrun). f_equal.
  rewrite tolerance_inside in Hrc by (lra || apply Rabs_pos).
  rewrite tolerance_inside in Hlc by (lra || apply Rabs_pos).
  rewrite tolerance_inside in Hrg by (lra || apply Rabs_pos).
  rewrite tolerance_inside in Hlg by (lra || apply Rabs_pos).
  rewrite norm_without_second_axis in Hx.
  rewrite tolerance_inside in Hx
    by (first [exact Hm
              | split; [apply sqrt_pos | apply sqrt_le_of_square; lra]]).
  injection Hrc as Hrc. injection Hlc as Hlc. injection Hrg as Hrg.
  injection Hlg as Hlg. injection Hx as Hx.
  rewrite <- Hrc, <- Hlc, hamacher_one_one in Hyc.
  rewrite <- Hrg, <- Hlg, hamacher_one_one in Hyg.
  rewrite Hyc, <- Hx, hamacher_one_one in Hc.
  assert (E : (caging l >? 0.95) = true) by (apply Rgtb_true; lra).
  rewrite E in Hg. rewrite Hcg, Hg, Hc, Hyg. lra.
Qed.

End CagingMore.

(** ** A fresh episode *)

Section FreshEpisode.

Context {U : reward_utils.Tolerance}.

Variable _reset_hand : SawyerSoccerEnvV2 -> SawyerXYZEnv.
Variable _set_obj_xyz : vec3 -> SawyerSoccerEnvV2 -> SawyerXYZEnv.
Variable _get_obs : SawyerSoccerEnvV2 -> list R.

(** The simulation state after a reset is the one the placing of the
    object left. *)
Lemma reset_model_super fuel self obs' self' :
  reset_model _reset_hand _set_obj_xyz _get_obs fuel self
  = Some (obs', self') ->
  exists p s, super self' = _set_obj_xyz p s.
Proof.
  unfold reset_model. cbn [_get_state_rand_vec].
  match goal with
  | |- context [reset_model_loop fuel ?g ?s] =>
      destruct (reset_model_loop fuel g s) as [[g' s'] |]
  end; [| discriminate].
  intros [= <- <-]. cbn. eexists. eexists. reflexivity.
Qed.

(** X17.  An episode never starts solved.  After [reset_model], once a
    task is set and with a margin for the x/z alignment that is not
    negative, on an observation that shows the object at its initial
    position, the distance to the target that [evaluate_state] reports is
    at least [maxPushDist], which is at least 0.15; so [success] is 0 and
    the reward is at most 9.5. *)
Theorem fresh_episode_not_solved fuel self obs' self' obs action :
  reset_model _reset_hand _set_obj_xyz _get_obs fuel self
  = Some (obs', self') ->
  _set_task_called (super self') = true ->
  0 <= x_z_margin self' ->
  (7 <= List.length obs)%nat -> action <> [] ->
  V3 (nth 4 obs 0) (nth 5 obs 0) (nth 6 obs 0) = obj_init_pos self' ->
  exists reward info,
    evaluate_state self' obs action = Ok (reward, info) /\
    obj_to_target info >= maxPushDist self' /\
    maxPushDist self' >= 0.15 /\
    success info = 0 /\
    reward <= 9.5.
Proof.
  intros Hrun Htask Hmargin Hobs Hact Hstart.
  apply reset_model_returns in Hrun.
  destruct Hrun as (k & _ & Hfar & _ & Ht & _ & Ho & Hm & _).
  assert (Hpush : maxPushDist self'
                  = norm2 (sub2 (firsttwo3 (obj_init_pos self'))
                                (firsttwo3 (_target_pos self'))))
    by (rewrite Hm, Ho, Ht; reflexivity).
  destruct (compute_reward_locals_run self' action obs Hobs Hact Hmargin)
    as (l & cl & Hl & _ & Hobj & _ & _ & Htt & _ & _ & _ & _ & _
        & Hr0 & Hr & Hret).
  destruct (compute_reward_scores_range self' action obs l Hobs Hact
              Hmargin Hl)
    as (_ & _ & _ & Hle).
  pose proof (weighted_distance_bounds (obj l) (_target_pos self')) as Hb.
  pose proof (planar_distance_le (obj l) (_target_pos self')) as Hp.
  change (weighted_distance (obj l) (_target_pos self'))
    with (norm3 (mul3 (sub3 (obj l) (_target_pos self')) (V3 3.0 1.0 1.0)))
    in Hb.
  change (euclidean_distance (obj l) (_target_pos self'))
    with (norm3 (sub3 (obj l) (_target_pos self'))) in Hb, Hp.
  rewrite <- Htt, <- Hret in Hb. rewrite <- Hret in Hp.
  rewrite Hobj, Hstart, <- Hpush in Hp.
  assert (Hd : maxPushDist self' >= 0.15) by (rewrite Hm; lra).
  eexists. eexists.
  split; [apply (evaluate_state_run self' obs action l Htask Hobs Hl) |].
  cbn [obj_to_target success].
  split; [lra |]. split; [exact Hd |].
  assert (Es : (ret_target_to_obj l <=? 0.07) = false).
  { destruct (ret_target_to_obj l <=? 0.07) eqn:E; [| reflexivity].
    apply Rleb_true in E. lra. }
  assert (Et : (target_to_obj l <? TARGET_RADIUS) = false).
  { apply Rltb_false. unfold TARGET_RADIUS. lra. }
  rewrite Es, Hr, Et. split; [reflexivity | exact Hle].
Qed.

End FreshEpisode.

Section EpisodeStart.

Context {U : reward_utils.Tolerance}.
Import reward_utils.

(** X19.  On a run that returns, while the object sits exactly at its
    initial position, outside the target radius, the margin handed to the
    tolerance function is 0 and the in-place score it gives is 0; with
    the target's second coordinate below 1.1 the final in-place score is
    0 too and the reward is three times the grasp score. *)
Theorem in_place_zero_at_start self action obs :
  (7 <= List.length obs)%nat -> action <> [] -> 0 <= x_z_margin self ->
  V3 (nth 4 obs 0) (nth 5 obs 0) (nth 6 obs 0) = obj_init_pos self ->
  weighted_distance (obj_init_pos self) (_target_pos self) > TARGET_RADIUS ->
  i1 (_target_pos self) < 1.1 ->
  exists l,
    compute_reward_locals self action obs = Ok l /\
    target_to_obj_init l = 0 /\
    in_place0 l = 0 /\
    in_place l = 0 /\
    reward l = 3 * object_grasped l.
Proof.
  intros Hobs Hact Hmargin Hstart Hfar Hy.
  destruct (compute_reward_locals_run self action obs Hobs Hact Hmargin)
    as (l & cl & Hl & _ & Hobj & _ & _ & Htt & Hti & Hip0 & Hgl & Hip & _
        & Hr0 & Hr & _).
  destruct (compute_reward_scores_range self action obs l Hobs Hact
              Hmargin Hl)
    as (_ & _ & Hp & _).
  rewrite Hstart in Hobj.
  change (weighted_distance (obj_init_pos self) (_target_pos self))
    with (norm3 (mul3 (sub3 (obj_init_pos self) (_target_pos self))
                      (V3 3.0 1.0 1.0))) in Hfar.
  rewrite Hobj in Htt, Hti. rewrite <- Htt in Hfar.
  assert (Hm : target_to_obj_init l = 0).
  { rewrite Hti. unfold norm3, mul3, sub3. cbn [i0 i1 i2].
    apply sqrt_eq_of_square; lra. }
  assert (H0 : in_place0 l = 0).
  { rewrite Hm, tolerance_hard in Hip0
      by (unfold TARGET_RADIUS in *; lra).
    injection Hip0 as <-. reflexivity. }
  assert (Hz : in_place l = 0).
  { destruct ((i1 (obj l) >? goal_line l)
              && (Rabs (i0 (obj l) - i0 (_target_pos self)) >? 0.10)) eqn:E;
      [| rewrite Hip, H0; reflexivity].
    apply andb_prop in E. destruct E as [E1 _]. apply Rgtb_true in E1.
    assert (Hpen : 0 < 2 * ((i1 (obj l) - goal_line l)
                            / (1 - goal_line l))).
    { apply Rmult_lt_0_compat; [lra |]. apply Rdiv_lt_0_compat; lra. }
    rewrite float_div_some in Hip by lra.
    revert Hp. rewrite Hip, H0. unfold clip, Rmin, Rmax.
    destruct (Rle_dec _ 0.0); destruct (Rle_dec _ 1.0); lra. }
  exists l. split; [exact Hl |]. split; [exact Hm |].
  split; [exact H0 |]. split; [exact Hz |].
  assert (Et : (target_to_obj l <? TARGET_RADIUS) = false)
    by (apply Rltb_false; lra).
  rewrite Hr, Et, Hr0, Hz. lra.
Qed.

End EpisodeStart.

(** ** The goal body *)

Section GoalBody.

Variable _reset_hand : SawyerSoccerEnvV2 -> SawyerXYZEnv.
Variable _set_obj_xyz : vec3 -> SawyerSoccerEnvV2 -> SawyerXYZEnv.
Variable _get_obs : SawyerSoccerEnvV2 -> list R.

(** X18.  If placing the object does not move bodies of the model, then
    after [reset_model] the body [goal_whole] sits at the target, and
    every other body is where the hand reset left it. *)
Theorem reset_model_moves_goal_body fuel self obs' self' :
  (forall p s, body_pos (_set_obj_xyz p s) = body_pos (super s)) ->
  reset_model _reset_hand _set_obj_xyz _get_obs fuel self
  = Some (obs', self') ->
  body_pos (super self') "goal_whole" = _target_pos self' /\
  forall name,
    String.eqb name "goal_whole" = false ->
    body_pos (super self') name = body_pos (_reset_hand self) name.
Proof.
  intros Hkeep. unfold reset_model. cbn [_get_state_rand_vec].
  match goal with
  | |- context [reset_model_loop fuel ?g ?s] =>
      destruct (reset_model_loop fuel g s) as [[g' s'] |] eqn:Hloop
  end; [| discriminate].
  intros [= <- <-].
  apply reset_model_loop_frame in Hloop.
  destruct Hloop as (Hsuper & _).
  cbn. rewrite Hkeep. cbn. split; [reflexivity |].
  intros name Hname. rewrite Hname, Hsuper. reflexivity.
Qed.

End GoalBody.

(** X18 on the environment as constructed. *)
Lemma reset_model_moves_goal_body_witness :
  exists obs' self',
    reset_model Examples.reset_hand_id Examples.set_obj_xyz_id
      Examples.get_obs_zero 0 Examples.env = Some (obs', self') /\
    body_pos (super self') "goal_whole" = _target_pos self' /\
    forall name,
      String.eqb name "goal_whole" = false ->
      body_pos (super self') name
      = body_pos (Examples.reset_hand_id Examples.env) name.
Proof.
  destruct (reset_model_configured_once Examples.reset_hand_id
              Examples.set_obj_xyz_id Examples.get_obs_zero
              Examples.env eq_refl example_draws_in_space)
    as (obs' & self' & Hrun & _).
  exists obs', self'. split; [exact Hrun |].
  apply (reset_model_moves_goal_body Examples.reset_hand_id
           Examples.set_obj_xyz_id Examples.get_obs_zero 0 Examples.env
           obs' self'); [reflexivity | exact Hrun].
Defined.

(** ** The further properties on concrete runs *)

(** X5 with the object on the target. *)
Lemma compute_reward_range_witness :
  ((7 <= List.length MoreExamples.obs_on_target)%nat /\
   Examples.action <> [] /\ 0 <= x_z_margin Examples.env) /\
  exists l,
    compute_reward (U := long_tail) Examples.env Examples.action
      MoreExamples.obs_on_target
    = Ok (reward l, tcp_to_obj l, tcp_opened l, ret_target_to_obj l,
          object_grasped l, in_place l) /\
    obj l = V3 0 0.85 0 /\
    0 <= reward l <= 10 /\
    (reward l = 10 <->
     weighted_distance (obj l) (_target_pos Examples.env) < TARGET_RADIUS) /\
    (reward l <> 10 -> reward l <= 9.5) /\
    0 <= object_grasped l <= 1 /\
    0 <= in_place l <= 1.
Proof.
  split; [split; [simpl; lia | split; [discriminate | exact example_margin]]
         |].
  apply (compute_reward_range (U := long_tail) Examples.env Examples.action
           MoreExamples.obs_on_target);
    [simpl; lia | discriminate | exact example_margin].
Defined.


(** X7 with the object on the target. *)
Lemma evaluate_state_bonus_success_witness :
  (_set_task_called (super Examples.env) = true /\
   (7 <= List.length MoreExamples.obs_on_target)%nat /\
   Examples.action <> [] /\ 0 <= x_z_margin Examples.env) /\
  exists reward info to_obj opened to_target grasped placed,
    evaluate_state (U := long_tail) Examples.env MoreExamples.obs_on_target
      Examples.action = Ok (reward, info) /\
    compute_reward (U := long_tail) Examples.env Examples.action
      MoreExamples.obs_on_target
    = Ok (reward, to_obj, opened, to_target, grasped, placed) /\
    unscaled_reward info = reward /\
    0 <= reward <= 10 /\
    (reward = 10 -> success info = 1) /\
    (success info = 0 -> reward <= 9.5).
Proof.
  split; [split; [reflexivity
                 | split; [simpl; lia
                          | split; [discriminate | exact example_margin]]] |].
  apply (evaluate_state_bonus_success (U := long_tail) Examples.env
           MoreExamples.obs_on_target Examples.action);
    [reflexivity | simpl; lia | discriminate | exact example_margin].
Defined.

(** X8 on an action that closes the gripper and one that opens it. *)
Lemma reward_ignores_action_witness :
  ([0; 0; 0; 1] <> [] /\ [0; 0; 0; -1] <> []) /\
  compute_reward (U := long_tail) Examples.env [0; 0; 0; 1]
    Examples.obs_lifted
  = compute_reward (U := long_tail) Examples.env [0; 0; 0; -1]
      Examples.obs_lifted /\
  evaluate_state (U := long_tail) Examples.env Examples.obs_lifted
    [0; 0; 0; 1]
  = evaluate_state (U := long_tail) Examples.env Examples.obs_lifted
      [0; 0; 0; -1].
Proof.
  split; [split; discriminate |].
  apply (reward_ignores_action (U := long_tail) Examples.env
           Examples.obs_lifted [0; 0; 0; 1] [0; 0; 0; -1]); discriminate.
Defined.

(** X9 on two observations that differ in the hand position and in an
    eighth entry. *)
Lemma reward_reads_entries_3_to_6_witness :
  compute_reward (U := long_tail) Examples.env Examples.action
    Examples.obs_lifted
  = compute_reward (U := long_tail) Examples.env Examples.action
      [9; 9; 9; 1; 0; 0.6; 0.08; 7] /\
  evaluate_state (U := long_tail) Examples.env Examples.obs_lifted
    Examples.action
  = evaluate_state (U := long_tail) Examples.env
      [9; 9; 9; 1; 0; 0.6; 0.08; 7] Examples.action.
Proof.
  apply (reward_reads_entries_3_to_6 (U := long_tail) Examples.env
           Examples.action Examples.obs_lifted
           [9; 9; 9; 1; 0; 0.6; 0.08; 7]);
    try reflexivity; simpl; lia.
Defined.

(** X10 on a run that returns and on one with a negative margin. *)
Lemma compute_reward_returns_iff_witness :
  (exists v,
      compute_reward (U := long_tail) Examples.env Examples.action
        Examples.obs_lifted = Ok v) /\
  compute_reward (U := long_tail) MoreExamples.below_hand_env
    Examples.action Examples.obs_lifted = Raise ValueError.
Proof.
  split.
  - apply (proj1 (compute_reward_returns_iff (U := long_tail) Examples.env
                    Examples.action Examples.obs_lifted)).
    split; [simpl; lia | split; [discriminate | exact example_margin]].
  - apply (proj1 (proj2 (compute_reward_returns_iff (U := long_tail)
                           MoreExamples.below_hand_env Examples.action
                           Examples.obs_lifted)));
      [simpl; lia | exact below_hand_margin].
Defined.

(** X11 on an observation of four entries. *)
Lemma compute_reward_short_observation_witness :
  (List.length [0; 0.6; 0.2; 1]%R < 7)%nat /\
  compute_reward (U := long_tail) Examples.env Examples.action
    [0; 0.6; 0.2; 1] = Raise ValueError.
Proof.
  split; [simpl; lia |].
  apply (compute_reward_short_observation (U := long_tail) Examples.env
           Examples.action [0; 0.6; 0.2; 1]).
  simpl. lia.
Defined.

(** X12 on the environment as constructed. *)
Lemma empty_action_index_error_witness :
  ((7 <= List.length Examples.obs_lifted)%nat /\ OBJ_RADIUS <= 0.05 /\
   0 <= x_z_margin Examples.env) /\
  _gripper_caging_reward (U := long_tail) Examples.env [] (V3 0 0.6 0.03)
    OBJ_RADIUS = Raise IndexError /\
  compute_reward (U := long_tail) Examples.env [] Examples.obs_lifted
  = Raise IndexError.
Proof.
  assert (Hlen : (7 <= List.length Examples.obs_lifted)%nat)
    by (simpl; lia).
  split; [split; [exact Hlen
                 | split; [exact OBJ_RADIUS_fits | exact example_margin]] |].
  destruct (empty_action_index_error (U := long_tail) Examples.env
              Examples.obs_lifted (V3 0 0.6 0.03) OBJ_RADIUS Hlen)
    as (Hcaging & Hreward & _).
  split; [exact (Hcaging OBJ_RADIUS_fits example_margin)
         | exact (Hreward example_margin)].
Defined.

(** X13 with the object past the goal line and to the side. *)
Lemma goal_line_lowers_in_place_witness :
  ((7 <= List.length MoreExamples.obs_past_goal_line)%nat /\
   Examples.action <> [] /\ 0 <= x_z_margin Examples.env /\
   i1 (_target_pos Examples.env) < 1.1) /\
  exists l,
    compute_reward_locals (U := long_tail) Examples.env Examples.action
      MoreExamples.obs_past_goal_line = Ok l /\
    in_place l <= in_place0 l /\
    (i1 (obj l) > goal_line l /\
     Rabs (i0 (obj l) - i0 (_target_pos Examples.env)) > 0.10 ->
     in_place l = 0 \/ in_place l < in_place0 l).
Proof.
  assert (Hy : i1 (_target_pos Examples.env) < 1.1) by (cbn; lra).
  split; [split; [simpl; lia
                 | split; [discriminate
                          | split; [exact example_margin | exact Hy]]] |].
  apply (goal_line_lowers_in_place (U := long_tail) Examples.env
           Examples.action MoreExamples.obs_past_goal_line);
    [simpl; lia | discriminate | exact example_margin | exact Hy].
Defined.

(** X14 on the environment as constructed. *)
Lemma gripper_caging_reward_threshold_witness :
  (Examples.action <> [] /\ OBJ_RADIUS <= 0.05 /\
   0 <= x_z_margin Examples.env) /\
  exists l v,
    _gripper_caging_reward_locals (U := long_tail) Examples.env
      Examples.action (V3 0 0.6 0.03) OBJ_RADIUS = Ok l /\
    _gripper_caging_reward (U := long_tail) Examples.env Examples.action
      (V3 0 0.6 0.03) OBJ_RADIUS = Ok v /\
    (caging l <= 0.95 -> v = caging l / 2) /\
    (caging l > 0.95 -> v = (caging l + y_gripping l) / 2) /\
    (v > 0.475 <-> caging l > 0.95) /\
    caging l / 2 <= v.
Proof.
  split; [split; [discriminate
                 | split; [exact OBJ_RADIUS_fits | exact example_margin]] |].
  apply (gripper_caging_reward_threshold (U := long_tail) Examples.env
           Examples.action (V3 0 0.6 0.03) OBJ_RADIUS);
    [discriminate | exact OBJ_RADIUS_fits | exact example_margin].
Defined.

(** X15 on the environment as constructed. *)
Lemma x_z_caging_ignores_second_axis_witness :
  (Examples.action <> [] /\ OBJ_RADIUS <= 0.05 /\
   0 <= x_z_margin Examples.env) /\
  exists l,
    _gripper_caging_reward_locals (U := long_tail) Examples.env
      Examples.action (V3 0.01 0.6 0.03) OBJ_RADIUS = Ok l /\
    x_z_margin Examples.env
    = sqrt ((0 - 0) * (0 - 0) + (0.03 - 0.2) * (0.03 - 0.2)) - 0.005 /\
    reward_utils.long_tail_tolerance
      (sqrt ((0 - 0.01) * (0 - 0.01) + (0.2 - 0.03) * (0.2 - 0.03)))
      (0, 0.005) (x_z_margin Examples.env) "long_tail"
    = Ok (x_z_caging l).
Proof.
  split; [split; [discriminate
                 | split; [exact OBJ_RADIUS_fits | exact example_margin]] |].
  apply (x_z_caging_ignores_second_axis (U := long_tail) Examples.env
           Examples.action (V3 0.01 0.6 0.03) OBJ_RADIUS);
    [discriminate | exact OBJ_RADIUS_fits | exact example_margin].
Defined.

(** X16 with the pads 18 mm to either side of the object. *)
Lemma gripper_caging_reward_full_witness :
  _gripper_caging_reward (U := long_tail) MoreExamples.grasping_env
    Examples.action (V3 0 0.6 0.03) OBJ_RADIUS = Ok 1.
Proof.
  apply (gripper_caging_reward_full (U := long_tail)
           MoreExamples.grasping_env Examples.action (V3 0 0.6 0.03)
           OBJ_RADIUS);
    [discriminate | exact example_margin | unfold OBJ_RADIUS; lra
     | unfold OBJ_RADIUS; cbn; lra | unfold OBJ_RADIUS; cbn; lra
     | cbn; lra].
Defined.

(** X17 on the environment as constructed, after one reset. *)
Lemma fresh_episode_not_solved_witness :
  exists obs' self',
    reset_model Examples.reset_hand_id MoreExamples.set_obj_xyz_base
      Examples.get_obs_zero 0 Examples.env = Some (obs', self') /\
    _set_task_called (super self') = true /\
    0 <= x_z_margin self' /\
    V3 0 0.65 0.03 = obj_init_pos self' /\
    exists reward info,
      evaluate_state (U := long_tail) self' MoreExamples.obs_at_start
        Examples.action = Ok (reward, info) /\
      obj_to_target info >= maxPushDist self' /\
      maxPushDist self' >= 0.15 /\
      success info = 0 /\
      reward <= 9.5.
Proof.
  destruct (reset_model_configured_once Examples.reset_hand_id
              MoreExamples.set_obj_xyz_base Examples.get_obs_zero
              Examples.env eq_refl example_draws_in_space)
    as (obs' & self' & Hrun & Ho & _).
  destruct (reset_model_super _ _ _ _ _ _ _ Hrun) as (p & s & Hs).
  assert (Htask : _set_task_called (super self') = true)
    by (rewrite Hs; reflexivity).
  assert (Hmargin : 0 <= x_z_margin self').
  { unfold x_z_margin. rewrite Ho, Hs. unfold norm3, sub3, add3. cbn.
    match goal with
    | |- 0 <= sqrt ?e - 0.005 =>
        assert (H : 0.005 <= sqrt e) by (apply sqrt_ge_of_square; lra); lra
    end. }
  assert (Hstart : V3 0 0.65 0.03 = obj_init_pos self')
    by (rewrite Ho; reflexivity).
  exists obs', self'. split; [exact Hrun |].
  split; [exact Htask |]. split; [exact Hmargin |].
  split; [exact Hstart |].
  apply (fresh_episode_not_solved (U := long_tail) Examples.reset_hand_id
           MoreExamples.set_obj_xyz_base Examples.get_obs_zero 0
           Examples.env obs' self' MoreExamples.obs_at_start
           Examples.action Hrun Htask Hmargin);
    [simpl; lia | discriminate | exact Hstart].
Defined.

(** X19 on the environment as constructed, the object where the
    constructor's initial configuration has it. *)
Lemma in_place_zero_at_start_witness :
  exists l,
    compute_reward_locals (U := long_tail) Examples.env Examples.action
      [0; 0.6; 0.2; 1; 0; 0.6; 0.03] = Ok l /\
    target_to_obj_init l = 0 /\
    in_place0 l = 0 /\
    in_place l = 0 /\
    reward l = 3 * object_grasped l.
Proof.
  apply (in_place_zero_at_start (U := long_tail) Examples.env
           Examples.action [0; 0.6; 0.2; 1; 0; 0.6; 0.03]);
    [simpl; lia | discriminate | exact example_margin | reflexivity
     | | cbn; lra].
  unfold weighted_distance, TARGET_RADIUS. cbn.
  apply Rlt_gt, Rlt_le_trans with 0.2; [lra |].
  apply sqrt_ge_of_square; lra.
Defined.
